(** * InvokeAI database tools: a shallow embedding and its verification

    The repository holds three command-line scripts working on the SQLite
    catalog of an image-generation application:

    - [Convert_Board_to_Assets_v1.0.py] and [Convert_Assets_to_Board_v1.0.py]
      reclassify every image linked to a named board;
    - [Restore_Images_DB_v2.1.py] walks the image directory, inserts catalog
      rows for files that have none, links them to a dated board and
      optionally writes thumbnails.

    The scripts are embedded as functions in a small state-and-exception
    monad over a world made of the database connection, the disk and the
    standard output. *)

From Stdlib Require Import ZArith String Ascii List Lia.
From stdpp Require Import base option list strings sorting gmap.

#[local] Set Warnings "-clear-no-such-hyp".

Local Open Scope string_scope.
Local Open Scope Z_scope.
Local Open Scope list_scope.

(** ** The catalog *)

(** A row of [images]: the ten columns the restore tool writes, and
    [deleted_at], which the reclassification tools name in their docstring.
    Column values are kept as the scripts pass them (text as strings, flags
    as integers). *)
Record image_row := ImageRow {
  image_name : string;
  image_origin : string;
  image_category : string;
  width : Z;
  height : Z;
  metadata : option string;
  is_intermediate : Z;
  created_at : string;
  updated_at : string;
  has_workflow : Z;
  deleted_at : option string
}.

Record board_row := BoardRow {
  board_id : string;
  board_name : string
}.

Record board_image_row := BoardImageRow {
  bi_board_id : string;
  bi_image_name : string
}.

(** Tables are lists of rows in storage order; no key is built into the
    representation. *)
Record db := Db {
  images : list image_row;
  boards : list board_row;
  board_images : list board_image_row
}.

#[global] Instance image_row_eq_dec : EqDecision image_row.
Proof. solve_decision. Defined.
#[global] Instance board_row_eq_dec : EqDecision board_row.
Proof. solve_decision. Defined.
#[global] Instance board_image_row_eq_dec : EqDecision board_image_row.
Proof. solve_decision. Defined.

(** ** Paths, files and the disk *)

(** A [pathlib] path is its tuple of parts. *)
Definition path := list string.

(** What Pillow sees of an image file: the header ([size], the text chunks
    of [info]) is read by [Image.open]; the pixel data is only decoded on
    first use, which fails on a damaged file. *)
Record image := Image {
  img_size : Z * Z;
  info_invokeai_metadata : option string;
  info_invokeai_graph : option string;
  pixels_ok : bool
}.

Record datetime := DateTime {
  year : Z; month : Z; day : Z;
  hour : Z; minute : Z; second : Z; microsecond : Z
}.

(** A disk entry: a directory, or a regular file with its modification time
    and, when Pillow can identify it, the image it holds. *)
Inductive node :=
| Dir (mtime : datetime)
| File (mtime : datetime) (content : option image).

(** ** Output and exceptions *)

(** One constructor per [print] call of the three scripts, with the values
    interpolated into the message. [label] is the wording by which the two
    reclassification tools differ. *)
Inductive msg :=
(* reclassification tools *)
| MsgDryHeader (label : string)
| MsgDryItem (name : string)
| MsgInfoUpdating (n : nat) (label : string)
| MsgOkUpdated (rowcount : nat)
| MsgInfoBoard (name bid : string)
| MsgNoImages
| MsgInfoFound (n : nat)
| MsgDryTotal (updated : nat)
| MsgUpdatedTotal (updated : nat) (label : string)
(* restore tool *)
| MsgDryInsert (name cat origin : string) (intermediate has_wf : Z)
| MsgInsert (name : string)
| MsgBoardReuse (name bid : string)
| MsgDryBoardCreate (name bid : string)
| MsgBoardCreated (name bid : string)
| MsgDryLink (name bid : string)
| MsgLinked (name bid : string)
| MsgDryThumb (p : path)
| MsgThumbCreated (p : path)
| MsgSkip (name : string)
| MsgErrRead (p : path) (e : string)
| MsgFile (p : path) (name : string)
| MsgErrInsert (name : string) (e : string)
| MsgDone.

#[global] Instance msg_eq_dec : EqDecision msg.
Proof. unfold path. solve_decision. Defined.

Inductive exn :=
| SystemExit (message : string)
| ValueError (message : string)
| IndexError
| AttributeError
| OSError (message : string)
| DatabaseError (message : string).

(** [Exception] is the base class of all of these but [SystemExit]. *)
Definition is_Exception (e : exn) : bool :=
  match e with SystemExit _ => false | _ => true end.

Definition exn_str (e : exn) : string :=
  match e with
  | SystemExit m | ValueError m | OSError m | DatabaseError m => m
  | IndexError => "list index out of range"
  | AttributeError => "object has no attribute 'get'"
  end.

(** The status with which the interpreter leaves when [e] reaches the top
    level: a [SystemExit] carrying a string prints it and exits with 1, and
    so does a traceback. *)
Definition exit_status_of_exn (e : exn) : Z := 1.

(** ** The monad *)

Record world := World {
  conn : db;
  disk : gmap path node;
  stdout : list msg
}.

Inductive result (A : Type) :=
| Raised (e : exn)
| Returned (a : A).
Arguments Raised {A} e.
Arguments Returned {A} a.

(** A computation runs on a world; what it did to the world stays done when
    it raises (every write of the scripts is committed at once). *)
Definition Py (A : Type) : Type := world -> result A * world.

Definition ret {A} (a : A) : Py A := fun w => (Returned a, w).

Definition bind {A B} (m : Py A) (k : A -> Py B) : Py B :=
  fun w =>
    match m w with
    | (Returned a, w') => k a w'
    | (Raised e, w') => (Raised e, w')
    end.

Definition raise {A} (e : exn) : Py A := fun w => (Raised e, w).

(** [try: body / except C as e: handler], where [C] is given by [catches]. *)
Definition try_except {A} (body : Py A) (catches : exn -> bool)
    (handler : exn -> Py A) : Py A :=
  fun w =>
    match body w with
    | (Raised e, w') => if catches e then handler e w' else (Raised e, w')
    | r => r
    end.

Declare Scope py_scope.
Delimit Scope py_scope with py.
Notation "x <- m ;; k" := (bind m (fun x => k))
  (at level 100, m at next level, right associativity) : py_scope.
Notation "m ;; k" := (bind m (fun _ => k))
  (at level 100, right associativity) : py_scope.
Local Open Scope py_scope.

Definition print (m : msg) : Py unit :=
  fun w => (Returned tt, World (conn w) (disk w) (stdout w ++ [m])).

Definition when (b : bool) (m : Py unit) : Py unit :=
  if b then m else ret tt.

Definition get_conn : Py db := fun w => (Returned (conn w), w).

Definition put_conn (d : db) : Py unit :=
  fun w => (Returned tt, World d (disk w) (stdout w)).

Definition get_disk : Py (gmap path node) := fun w => (Returned (disk w), w).

Definition put_disk (d : gmap path node) : Py unit :=
  fun w => (Returned tt, World (conn w) d (stdout w)).

(** The exit status of a whole script run. *)
Definition exit_status {A} (r : result A * world) : Z :=
  match fst r with
  | Returned _ => 0
  | Raised e => exit_status_of_exn e
  end.

(** ** SQL helpers *)

(** SQLite's built-in [LOWER]: only the ASCII letters are folded. *)
Definition lower_ascii (c : ascii) : ascii :=
  let n := nat_of_ascii c in
  if ((65 <=? n) && (n <=? 90))%nat then ascii_of_nat (n + 32) else c.

Fixpoint LOWER (s : string) : string :=
  match s with
  | EmptyString => EmptyString
  | String c r => String (lower_ascii c) (LOWER r)
  end.

(** [fetchone] on a result set. *)
Definition fetchone {A} (rows : list A) : option A := head rows.

(** ** The reclassification tools

    [Convert_Board_to_Assets_v1.0.py] and [Convert_Assets_to_Board_v1.0.py]
    are the same program up to the two values written, the wording of the
    messages and a closing [print]. The common text is embedded once, over a
    description of the tool. Opening and closing the connection leave the
    stored tables alone and have no counterpart here; every write is
    committed by the statement after it. *)

Module Reclassify.

(** The command line: [--board-name], [--dry-run], [--verbose]
    ([--db] names the file behind the connection). *)
Record args := Args {
  arg_board_name : string;
  arg_dry_run : bool;
  arg_verbose : bool
}.

Record tool := Tool {
  target_category : string;
  target_origin : string;
  label : string;
  not_found : string       (* tail of the [SystemExit] message *)
}.

(** The row after [SET image_category = ..., image_origin = ...]. *)
Definition set_class (t : tool) (r : image_row) : image_row :=
  {| image_name := image_name r;
     image_origin := target_origin t;
     image_category := target_category t;
     width := width r;
     height := height r;
     metadata := metadata r;
     is_intermediate := is_intermediate r;
     created_at := created_at r;
     updated_at := updated_at r;
     has_workflow := has_workflow r;
     deleted_at := deleted_at r |}.

(** [SELECT board_id FROM boards WHERE LOWER(board_name) = LOWER(?)]. *)
Definition select_board_ci (name : string) (d : db) : list string :=
  board_id <$> filter (fun b => LOWER (board_name b) = LOWER name) (boards d).

Definition get_board_id_by_name (t : tool) (name : string) : Py string :=
  d <- get_conn ;;
  match fetchone (select_board_ci name d) with
  | None => raise (SystemExit ("Board with name '" +:+ name +:+ "'" +:+ not_found t))
  | Some bid => ret bid
  end.

(** [SELECT image_name FROM board_images WHERE board_id = ?]. *)
Definition get_images_for_board (bid : string) : Py (list string) :=
  d <- get_conn ;;
  ret (bi_image_name <$> filter (fun l => bi_board_id l = bid) (board_images d)).

(** One [UPDATE images SET ... WHERE image_name = ?]: the table after it
    and the number of rows it changed. *)
Definition update_where_name (t : tool) (name : string)
    (rows : list image_row) : list image_row * nat :=
  ((fun r => if decide (image_name r = name) then set_class t r else r) <$> rows,
   length (filter (fun r => image_name r = name) rows)).

(** [cur.executemany]: the statement once per parameter, in order;
    [cur.rowcount] is the sum of the rows changed. *)
Fixpoint executemany (t : tool) (names : list string)
    (rows : list image_row) (rowcount : nat) : list image_row * nat :=
  match names with
  | [] => (rows, rowcount)
  | name :: rest =>
      let '(rows', n) := update_where_name t name rows in
      executemany t rest rows' (rowcount + n)%nat
  end.

Definition mark_images (t : tool) (image_names : list string)
    (dry_run verbose : bool) : Py nat :=
  match image_names with
  | [] => ret 0%nat
  | _ =>
      if dry_run then
        print (MsgDryHeader (label t)) ;;
        (fix each (l : list string) : Py unit :=
           match l with
           | [] => ret tt
           | name :: rest => print (MsgDryItem name) ;; each rest
           end) image_names ;;
        ret (length image_names)
      else
        when verbose (print (MsgInfoUpdating (length image_names) (label t))) ;;
        d <- get_conn ;;
        let '(rows, rowcount) := executemany t image_names (images d) 0%nat in
        put_conn (Db rows (boards d) (board_images d)) ;;
        when verbose (print (MsgOkUpdated rowcount)) ;;
        ret rowcount
  end.

Definition main (t : tool) (a : args) : Py unit :=
  bid <- try_except (get_board_id_by_name t (arg_board_name a))
           (fun e => match e with SystemExit _ => true | _ => false end)
           (fun e => raise e) ;;
  when (arg_verbose a) (print (MsgInfoBoard (arg_board_name a) bid)) ;;
  image_names <- get_images_for_board bid ;;
  match image_names with
  | [] => print MsgNoImages
  | _ =>
      when (arg_verbose a) (print (MsgInfoFound (length image_names))) ;;
      updated <- mark_images t image_names (arg_dry_run a) (arg_verbose a) ;;
      if arg_dry_run a then print (MsgDryTotal updated)
      else print (MsgUpdatedTotal updated (label t))
  end.

End Reclassify.

(** [Convert_Board_to_Assets_v1.0.py] *)
Module ConvertBoardToAssets.
Definition tool : Reclassify.tool :=
  Reclassify.Tool "user" "external" "assets" " not found.".
Definition get_board_id_by_name := Reclassify.get_board_id_by_name tool.
Definition get_images_for_board := Reclassify.get_images_for_board.
Definition mark_images_as_assets := Reclassify.mark_images tool.
Definition main := Reclassify.main tool.
(** [if __name__ == "__main__": main()] *)
Definition script (a : Reclassify.args) : Py unit := main a.
End ConvertBoardToAssets.

(** [Convert_Assets_to_Board_v1.0.py] *)
Module ConvertAssetsToBoard.
Definition tool : Reclassify.tool :=
  Reclassify.Tool "general" "internal" "general/internal"
    " not found (case-insensitive).".
Definition get_board_id_by_name := Reclassify.get_board_id_by_name tool.
Definition get_images_for_board := Reclassify.get_images_for_board.
Definition mark_images_as_general := Reclassify.mark_images tool.
Definition main := Reclassify.main tool.
(** [if __name__ == "__main__": main(); print("Done.")] *)
Definition script (a : Reclassify.args) : Py unit := main a ;; print MsgDone.
End ConvertAssetsToBoard.

(** ** Values the restore tool works on *)

(** What [json.loads] returns. [JNull] is Python's [None]; numbers are kept
    as integers, only their being zero or not is ever looked at. *)
#[local] Unset Elimination Schemes.
Inductive json :=
| JNull
| JBool (b : bool)
| JNum (n : Z)
| JStr (s : string)
| JArr (elems : list json)
| JObj (items : list (string * json)).
#[local] Set Elimination Schemes.

(** Python truth value, as tested by [if meta_json:]. *)
Definition truthy (j : json) : bool :=
  match j with
  | JNull => false
  | JBool b => b
  | JNum n => negb (n =? 0)
  | JStr s => negb (bool_decide (s = ""))
  | JArr l => match l with [] => false | _ => true end
  | JObj l => match l with [] => false | _ => true end
  end.

(** [dict.get(key)] on the items of a dict. *)
Fixpoint dict_get (items : list (string * json)) (key : string) : option json :=
  match items with
  | [] => None
  | (k, v) :: rest => if decide (k = key) then Some v else dict_get rest key
  end.

(** What the interpreter and its libraries supply to a run: the two library
    parsers, the clock and the random board identifier. *)
Record runtime := Runtime {
  json_loads : string -> option json;          (* [None]: JSONDecodeError *)
  strptime : string -> string -> option datetime; (* [None]: it raised *)
  datetime_now : datetime;
  uuid4 : string
}.

(** *** Formatting a [datetime] *)

Definition digit_char (n : Z) : ascii :=
  ascii_of_nat (48 + Z.to_nat (n mod 10)).

(** [n] in decimal on exactly [w] digits, zero-padded. *)
Fixpoint zpad (w : nat) (n : Z) : string :=
  match w with
  | O => ""
  | S w' => zpad w' (n / 10) +:+ String (digit_char n) ""
  end.

(** [dt.strftime(fmt)] for the directives the tool uses. *)
Fixpoint strftime (fmt : string) (dt : datetime) : string :=
  match fmt with
  | "" => ""
  | String "%" (String c rest) =>
      (if decide (c = "Y"%char) then zpad 4 (year dt)
       else if decide (c = "y"%char) then zpad 2 (year dt mod 100)
       else if decide (c = "m"%char) then zpad 2 (month dt)
       else if decide (c = "d"%char) then zpad 2 (day dt)
       else if decide (c = "H"%char) then zpad 2 (hour dt)
       else if decide (c = "M"%char) then zpad 2 (minute dt)
       else if decide (c = "S"%char) then zpad 2 (second dt)
       else if decide (c = "f"%char) then zpad 6 (microsecond dt)
       else String "%" (String c ""))
      +:+ strftime rest dt
  | String c rest => String c (strftime rest dt)
  end.

(** *** Paths *)

(** [p.relative_to(root)]: the parts of [p] after those of [root];
    [None] stands for the [ValueError] raised when [root] is no prefix. *)
Fixpoint relative_to (p root : path) : option path :=
  match root, p with
  | [], _ => Some p
  | r :: root', x :: p' => if decide (x = r) then relative_to p' root' else None
  | _ :: _, [] => None
  end.

(** [str(p)] of a relative path. *)
Definition path_str (p : path) : string :=
  match p with
  | [] => "."
  | _ => String.concat "/" p
  end.

(** [name.rfind('.')]; [None] for Python's [-1]. *)
Fixpoint rfind_dot (name : string) : option nat :=
  match name with
  | "" => None
  | String c rest =>
      match rfind_dot rest with
      | Some i => Some (S i)
      | None => if decide (c = "."%char) then Some O else None
      end
  end.


Definition stem (name : string) : string :=
  match rfind_dot name with
  | Some i =>
      if ((0 <? i) && (i <? String.length name - 1))%nat
      then substring 0 i name else name
  | None => name
  end.

(** [parts[-1] = v] on a non-empty list. *)
Definition set_last (parts : path) (v : string) : path :=
  removelast parts ++ [v].

(** [fnmatch(name, "*.png")]. *)
Definition matches_png (name : string) : bool :=
  let n := String.length name in
  (4 <=? n)%nat && bool_decide (substring (n - 4) 4 name = ".png").

(** The order of [pathlib] paths: lexicographic on the parts. *)
Fixpoint path_leb (p q : path) : bool :=
  match p, q with
  | [], _ => true
  | _ :: _, [] => false
  | x :: p', y :: q' =>
      if decide (x = y) then path_leb p' q' else String.ltb x y
  end.

Definition path_le (p q : path) : Prop := path_leb p q = true.

#[global] Instance path_le_dec : RelDecision path_le.
Proof. intros p q. unfold path_le. apply _. Defined.

(** [sorted(paths)]. *)
Definition sorted (paths : list path) : list path := merge_sort path_le paths.

(** [root.glob("**/*.png")]: every entry strictly below [root] whose name
    ends in [.png], in the order the directory scan yields them. *)
Definition glob_png (fs : gmap path node) (root : path) : list path :=
  List.filter
    (fun p => match relative_to p root with
              | Some ((_ :: _) as rel) => matches_png (List.last rel "")
              | _ => false
              end)
    (fst <$> map_to_list fs).

(** *** A reference [strptime]

    [datetime.strptime] belongs to the interpreter, and the tool is embedded
    over any function of its type ([strptime] of [runtime]). [py_strptime]
    is a reference instance for the directives the tool's formats use, on
    ASCII input, after CPython's [_strptime]: the format becomes a regular
    expression matched at the start of the value, ignoring case, with the
    alternatives of a directive tried in order; the whole value has to be
    consumed, and the fields have to make a date. *)

Definition cclass := ascii -> bool.

Definition in_range (lo hi : ascii) : cclass :=
  fun c => ((nat_of_ascii lo <=? nat_of_ascii c)
            && (nat_of_ascii c <=? nat_of_ascii hi))%nat.
Definition is_digit : cclass := in_range "0" "9".
Definition is_char (x : ascii) : cclass := fun c => bool_decide (c = x).
Definition is_char_i (x : ascii) : cclass :=
  fun c => bool_decide (lower_ascii c = lower_ascii x).
Definition is_space : cclass :=
  fun c => let n := nat_of_ascii c in
    ((n =? 32) || ((9 <=? n) && (n <=? 13)) || ((28 <=? n) && (n <=? 31)))%nat.

Inductive directive :=
| DField (c : ascii)
| DLit (c : ascii)
| DSpace.

(** Runs of white space in the format stand for [\s+]. *)
Fixpoint parse_format (after_space : bool) (fmt : string) : list directive :=
  match fmt with
  | "" => []
  | String "%" (String c rest) =>
      (if decide (c = "%"%char) then DLit c else DField c)
      :: parse_format false rest
  | String c rest =>
      if is_space c
      then (if after_space then [] else [DSpace]) ++ parse_format true rest
      else DLit c :: parse_format false rest
  end.

Definition z_alternatives : list (list cclass) :=
  let sign : cclass := fun c => is_char "+" c || is_char "-" c in
  let mm := [in_range "0" "5"; is_digit] in
  let colon := [[is_char ":"]; []] in
  let fracs :=
    ((fun k => is_char "." :: repeat is_digit k) <$> [6; 5; 4; 3; 2; 1]%nat)
    ++ [[]] in
  let tails :=
    flat_map (fun c2 => (fun f => c2 ++ mm ++ f) <$> fracs) colon ++ [[]] in
  flat_map (fun c1 => (fun t => [sign; is_digit; is_digit] ++ c1 ++ mm ++ t)
                        <$> tails) colon
  ++ [[is_char "Z"]].

(** The alternatives of a directive, in the order of its pattern. *)
Definition alternatives (c : ascii) : option (list (list cclass)) :=
  let d := is_digit in
  if decide (c = "Y"%char) then Some [[d; d; d; d]]
  else if decide (c = "m"%char) then
    Some [[is_char "1"; in_range "0" "2"]; [is_char "0"; in_range "1" "9"];
          [in_range "1" "9"]]
  else if decide (c = "d"%char) then
    Some [[is_char "3"; in_range "0" "1"]; [in_range "1" "2"; d];
          [is_char "0"; in_range "1" "9"]; [in_range "1" "9"];
          [is_char " "; in_range "1" "9"]]
  else if decide (c = "H"%char) then
    Some [[is_char "2"; in_range "0" "3"]; [in_range "0" "1"; d]; [d]]
  else if decide (c = "M"%char) then Some [[in_range "0" "5"; d]; [d]]
  else if decide (c = "S"%char) then
    Some [[is_char "6"; in_range "0" "1"]; [in_range "0" "5"; d]; [d]]
  else if decide (c = "f"%char) then
    Some ((fun k => repeat d k) <$> [6; 5; 4; 3; 2; 1]%nat)
  else if decide (c = "z"%char) then Some z_alternatives
  else None.

Fixpoint take_alt (alt : list cclass) (s : string) : option (string * string) :=
  match alt, s with
  | [], _ => Some ("", s)
  | p :: alt', String c r =>
      if p c then
        match take_alt alt' r with
        | Some (m, rest) => Some (String c m, rest)
        | None => None
        end
      else None
  | _ :: _, "" => None
  end.

(** What is left after one or more leading white-space characters, the
    longest run first. *)
Fixpoint space_splits (s : string) : list string :=
  match s with
  | String c r => if is_space c then space_splits r ++ [r] else []
  | "" => []
  end.

(** Matching with backtracking: the captured text of each directive and the
    unconsumed rest of the first way to match. *)
Fixpoint match_dirs (ds : list directive) (s : string)
    (caps : list (ascii * string)) : option (list (ascii * string) * string) :=
  match ds with
  | [] => Some (caps, s)
  | DLit x :: ds' =>
      match s with
      | String c r => if is_char_i x c then match_dirs ds' r caps else None
      | "" => None
      end
  | DSpace :: ds' =>
      (fix try (rests : list string) :=
         match rests with
         | [] => None
         | r :: more =>
             match match_dirs ds' r caps with
             | Some res => Some res
             | None => try more
             end
         end) (space_splits s)
  | DField f :: ds' =>
      match alternatives f with
      | None => None
      | Some alts =>
          (fix try (alts : list (list cclass)) :=
             match alts with
             | [] => None
             | a :: more =>
                 match take_alt a s with
                 | Some (m, rest) =>
                     match match_dirs ds' rest ((f, m) :: caps) with
                     | Some res => Some res
                     | None => try more
                     end
                 | None => try more
                 end
             end) alts
      end
  end.

Definition digit_val (c : ascii) : Z := Z.of_nat (nat_of_ascii c) - 48.

(** [int(s)] on captured text: decimal digits, after an optional blank. *)
Fixpoint int_of (acc : Z) (s : string) : Z :=
  match s with
  | "" => acc
  | String c r => int_of (if is_digit c then acc * 10 + digit_val c else acc) r
  end.

Definition capture (caps : list (ascii * string)) (f : ascii) : option string :=
  snd <$> List.find (fun cap => bool_decide (fst cap = f)) caps.

Definition is_leap (y : Z) : bool :=
  ((y mod 4 =? 0) && negb (y mod 100 =? 0)) || (y mod 400 =? 0).

Definition days_in_month (y m : Z) : Z :=
  if m =? 2 then (if is_leap y then 29 else 28)
  else if (m =? 4) || (m =? 6) || (m =? 9) || (m =? 11) then 30 else 31.

Definition all_digits (s : string) : bool :=
  forallb is_digit (list_ascii_of_string s).

(** The checks made on a [%z] capture: the colons are used consistently,
    and the offset stays below a day. *)
Definition z_ok (z : string) : bool :=
  if decide (z = "Z") then true
  else
    let c1 := bool_decide (String.get 3 z = Some ":"%char) in
    let z1 := if c1 then substring 0 3 z +:+ substring 4 (String.length z - 4) z
              else z in
    let long := (5 <? String.length z1)%nat in
    if c1 && long && negb (bool_decide (String.get 5 z1 = Some ":"%char))
    then false
    else
      let z2 := if c1 && long
                then substring 0 5 z1 +:+ substring 6 (String.length z1 - 6) z1
                else z1 in
      all_digits (substring 5 2 z2) && (int_of 0 (substring 1 2 z2) <=? 23).

Definition py_strptime (val fmt : string) : option datetime :=
  match match_dirs (parse_format false fmt) val [] with
  | Some (caps, "") =>
      let field f dflt :=
        match capture caps f with Some s => int_of 0 s | None => dflt end in
      let Y := field "Y"%char 1900 in
      let m := field "m"%char 1 in
      let d := field "d"%char 1 in
      let S := field "S"%char 0 in
      let us :=
        match capture caps "f"%char with
        | Some s => int_of 0 (s +:+ string_of_list_ascii
                                     (repeat "0"%char (6 - String.length s)))
        | None => 0
        end in
      let tz := match capture caps "z"%char with Some z => z_ok z | None => true end in
      if tz && (1 <=? Y) && (d <=? days_in_month Y m) && (S <=? 59)
      then Some (DateTime Y m d (field "H"%char 0) (field "M"%char 0) S us)
      else None
  | _ => None
  end.

Definition py_runtime (loads : string -> option json) (now : datetime)
    (board_uuid : string) : runtime :=
  Runtime loads py_strptime now board_uuid.

(** ** The restore tool: [Restore_Images_DB_v2.1.py] *)

Module RestoreImagesDB.

Definition THUMB_SIZE : Z := 256.

(** The command line: [--outputs], [--dry-run], [--verbose], [--gen-thumbs]
    ([--db] names the file behind the connection). *)
Record args := Args {
  arg_outputs : path;
  arg_dry_run : bool;
  arg_verbose : bool;
  arg_gen_thumbs : bool
}.

(** [str(p)] of any path: the root part is not followed by a separator. *)
Definition str (p : path) : string :=
  match p with
  | "/" :: rest => "/" +:+ String.concat "/" rest
  | _ => path_str p
  end.

Section WithRuntime.

Variable rt : runtime.

(** [Image.open(p)]: any failure of Pillow or of the file system is an
    [Exception]. *)
Definition Image_open (p : path) : Py image :=
  fs <- get_disk ;;
  match fs !! p with
  | Some (File _ (Some img)) => ret img
  | Some (File _ None) => raise (OSError "cannot identify image file")
  | Some (Dir _) => raise (OSError "Is a directory")
  | None => raise (OSError "No such file or directory")
  end.

(** [p.stat().st_mtime], already as the local time [fromtimestamp] gives. *)
Definition stat_mtime (p : path) : Py datetime :=
  fs <- get_disk ;;
  match fs !! p with
  | Some (File mt _) | Some (Dir mt) => ret mt
  | None => raise (OSError "No such file or directory")
  end.

Definition load_png_metadata (p : path)
    : Py (image * option string * json * option string * bool) :=
  img <- Image_open p ;;
  let meta_raw := info_invokeai_metadata img in
  let meta_json :=
    match meta_raw with
    | Some raw =>
        if bool_decide (raw = "") then JNull
        else match json_loads rt raw with Some j => j | None => JNull end
    | None => JNull
    end in
  let graph_raw := info_invokeai_graph img in
  let has_graph := match graph_raw with Some _ => true | None => false end in
  ret (img, meta_raw, meta_json, graph_raw, has_graph).

Definition candidate_keys : list string :=
  ["created"; "created_at"; "timestamp"; "time"].

Definition formats : list string :=
  ["%Y-%m-%dT%H:%M:%S.%fZ"; "%Y-%m-%dT%H:%M:%S%z"; "%Y-%m-%d %H:%M:%S"].

(** The inner loop: [dt] is assigned at the first format that parses, and
    the loop is left there. *)
Fixpoint try_formats (val : string) (fmts : list string) : option datetime :=
  match fmts with
  | [] => None
  | fmt :: rest =>
      match strptime rt val fmt with
      | Some dt => Some dt
      | None => try_formats val rest
      end
  end.

(** The outer loop over the keys, carrying [dt]. *)
Fixpoint scan_keys (items : list (string * json)) (keys : list string)
    (dt : option datetime) : option datetime :=
  match keys with
  | [] => dt
  | key :: rest =>
      let dt' :=
        match dict_get items key with
        | Some (JStr val) =>
            match try_formats val formats with
            | Some d => Some d
            | None => dt
            end
        | _ => dt
        end in
      match dt' with
      | Some d => Some d
      | None => scan_keys items rest dt'
      end
  end.

Definition detect_created_at (meta_json : json) (p : path) : Py string :=
  dt <- (if truthy meta_json then
           match meta_json with
           | JObj items => ret (scan_keys items candidate_keys None)
           | _ => raise AttributeError
           end
         else ret None) ;;
  dt <- match dt with
        | Some d => ret d
        | None => stat_mtime p
        end ;;
  ret (strftime "%Y-%m-%d %H:%M:%S.%f" dt).

(** [SELECT 1 FROM images WHERE image_name = ?], then [fetchone]. *)
Definition image_exists (name : string) : Py bool :=
  d <- get_conn ;;
  ret (match fetchone (filter (fun r => image_name r = name) (images d)) with
       | Some _ => true
       | None => false
       end).

Definition insert_image (name : string) (img : image)
    (meta_raw : option string) (has_graph : bool) (created : string)
    (dry_run verbose : bool) : Py unit :=
  let '(w, h) := img_size img in
  let image_category := "general" in
  let image_origin := "internal" in
  let has_workflow := if has_graph then 1 else 0 in
  let is_intermediate := 0 in
  if dry_run then
    print (MsgDryInsert name image_category image_origin is_intermediate
             has_workflow)
  else
    d <- get_conn ;;
    put_conn (Db (images d ++
                    [ImageRow name image_origin image_category w h meta_raw
                       is_intermediate created created has_workflow None])
                 (boards d) (board_images d)) ;;
    when verbose (print (MsgInsert name)).

Definition ensure_import_board (dry_run verbose : bool) : Py string :=
  let today := strftime "%d-%m-%y" (datetime_now rt) in
  let name := "Recovered " +:+ today in
  d <- get_conn ;;
  match fetchone (filter (fun b => board_name b = name) (boards d)) with
  | Some row =>
      when verbose (print (MsgBoardReuse name (board_id row))) ;;
      ret (board_id row)
  | None =>
      let bid := uuid4 rt in
      if dry_run then
        when verbose (print (MsgDryBoardCreate name bid)) ;;
        ret bid
      else
        put_conn (Db (images d) (boards d ++ [BoardRow bid name])
                    (board_images d)) ;;
        when verbose (print (MsgBoardCreated name bid)) ;;
        ret bid
  end.

(** Modelled from the spec: the constraint behind [INSERT OR IGNORE INTO
    board_images] (the schema of the catalog is not in the repository): a
    (board, image) pair is stored once, and inserting it again is ignored. *)
Definition insert_or_ignore_link (l : board_image_row)
    (links : list board_image_row) : list board_image_row :=
  if decide (l ∈ links) then links else links ++ [l].

Definition add_to_board (bid name : string) (dry_run verbose : bool) : Py unit :=
  if dry_run then
    when verbose (print (MsgDryLink name bid))
  else
    d <- get_conn ;;
    put_conn (Db (images d) (boards d)
                (insert_or_ignore_link (BoardImageRow bid name) (board_images d))) ;;
    when verbose (print (MsgLinked name bid)).

(** A function that only computes: its result, in any world. *)
Definition lift {A} (r : result A) : Py A := fun w => (r, w).

Definition get_thumbnail_path (outputs_root image_path : path) : result path :=
  match relative_to image_path outputs_root with
  | None =>
      Raised (ValueError ("image_path '" +:+ str image_path
                          +:+ "' is not under outputs_root '"
                          +:+ str outputs_root +:+ "'"))
  | Some rel =>
      let parts :=
        match rel with
        | first :: rest =>
            if decide (first = "images") then first :: "thumbnails" :: rest
            else rel
        | [] => rel
        end in
      match parts with
      | [] => Raised IndexError                      (* [parts[-1]] *)
      | _ =>
          let name := stem (List.last parts "") +:+ ".webp" in
          Returned (outputs_root ++ set_last parts name)
      end
  end.

Fixpoint mkdirs (dirs : list path) : Py unit :=
  match dirs with
  | [] => ret tt
  | d :: rest =>
      fs <- get_disk ;;
      match fs !! d with
      | Some (Dir _) => mkdirs rest
      | Some (File _ _) => raise (OSError "File exists")
      | None => put_disk (<[d := Dir (datetime_now rt)]> fs) ;; mkdirs rest
      end
  end.

(** [d.mkdir(parents=True, exist_ok=True)]: every missing directory on the
    way down to [d] is made; a regular file in the way is an error. *)
Definition mkdir_parents (d : path) : Py unit :=
  mkdirs ((fun n => take n d) <$> seq 1 (length d)).

(** The size of the thumbnail: the long side becomes [THUMB_SIZE]; [int()]
    of the quotient truncates. *)
Definition thumb_size (size : Z * Z) : Z * Z :=
  let '(w, h) := size in
  if h <=? w then (THUMB_SIZE, Z.quot (h * THUMB_SIZE) (Z.max w 1))
  else (Z.quot (w * THUMB_SIZE) (Z.max h 1), THUMB_SIZE).

(** [img.convert("RGB")], [img.resize(...)] and [img.save(...)]: the pixels
    are decoded by the first, and Pillow refuses an empty target size. *)
Definition convert_resize_save (img : image) (thumb_path : path) : Py unit :=
  if pixels_ok img then
    let '(new_w, new_h) := thumb_size (img_size img) in
    if (0 <? new_w) && (0 <? new_h) then
      fs <- get_disk ;;
      put_disk (<[thumb_path :=
                    File (datetime_now rt)
                      (Some (Image (new_w, new_h) None None true))]> fs)
    else raise (ValueError "height and width must be > 0")
  else raise (OSError "image file is truncated").

Definition ensure_thumbnail (outputs_root image_path : path)
    (dry_run verbose : bool) (img : option image) : Py unit :=
  thumb_path <- lift (get_thumbnail_path outputs_root image_path) ;;
  fs <- get_disk ;;
  match fs !! thumb_path with
  | Some _ => ret tt
  | None =>
      if dry_run then
        when verbose (print (MsgDryThumb thumb_path))
      else
        mkdir_parents (removelast thumb_path) ;;
        img <- match img with
               | None => Image_open image_path
               | Some i => ret i
               end ;;
        (* [try: ... finally: img.close()]: closing changes no state *)
        convert_resize_save img thumb_path ;;
        when verbose (print (MsgThumbCreated thumb_path))
  end.

Fixpoint for_each {A} (l : list A) (body : A -> Py unit) : Py unit :=
  match l with
  | [] => ret tt
  | x :: rest => body x ;; for_each rest body
  end.

(** The body of the loop of [main]; [continue] is its returning early. *)
Definition main_loop_body (a : args) (images_root : path)
    (import_board_id : string) (p : path) : Py unit :=
  rel <- match relative_to p images_root with
         | Some rel => ret rel
         | None => raise (ValueError "is not in the subpath of images_root")
         end ;;
  let name := path_str rel in
  known <- image_exists name ;;
  if known then when (arg_verbose a) (print (MsgSkip name))
  else
    loaded <- try_except (x <- load_png_metadata p ;; ret (Some x)) is_Exception
                (fun e => print (MsgErrRead p (exn_str e)) ;; ret None) ;;
    match loaded with
    | None => ret tt
    | Some (img, meta_raw, meta_json, graph_raw, has_graph) =>
        created <- detect_created_at meta_json p ;;
        when (arg_verbose a) (print (MsgFile p name)) ;;
        inserted <- try_except
                      (insert_image name img meta_raw has_graph created
                         (arg_dry_run a) (arg_verbose a) ;;
                       add_to_board import_board_id name
                         (arg_dry_run a) (arg_verbose a) ;;
                       ret true)
                      is_Exception
                      (fun e => print (MsgErrInsert name (exn_str e)) ;;
                                ret false) ;;
        if inserted then
          when (arg_gen_thumbs a)
            (ensure_thumbnail (arg_outputs a) p (arg_dry_run a) (arg_verbose a)
               (Some img))
        else ret tt
    end.

(** The files [main] works on: the matches of the glob without those that
    have a part named [thumbnails], sorted. *)
Definition png_files (fs : gmap path node) (images_root : path) : list path :=
  sorted (List.filter (fun p => negb (bool_decide ("thumbnails" ∈ p)))
            (glob_png fs images_root)).

Definition main (a : args) : Py unit :=
  let outputs_root := arg_outputs a in
  let images_root := outputs_root ++ ["images"] in
  import_board_id <- ensure_import_board (arg_dry_run a) (arg_verbose a) ;;
  fs <- get_disk ;;
  for_each (png_files fs images_root)
    (main_loop_body a images_root import_board_id) ;;
  when (negb (arg_dry_run a) || arg_verbose a) (print MsgDone).

(** [if __name__ == "__main__": main(); print("Done.")] *)
Definition script (a : args) : Py unit := main a ;; print MsgDone.

End WithRuntime.

End RestoreImagesDB.

(** * The vocabulary of the statements *)

(** The world with [log] printed after what was printed before. *)
Definition printed (w : world) (log : list msg) : world :=
  World (conn w) (disk w) (stdout w ++ log).


(** ** The reclassification tools *)

Module ReclassifySpec.
Import Reclassify.

(** The rows of [images] after the updates for [names]. *)
Definition reclassified (t : tool) (names : list string) (rows : list image_row)
    : list image_row :=
  (fun r => if decide (image_name r ∈ names) then set_class t r else r) <$> rows.

(** What [main] prints on a board that resolves to [bid], with [names]
    linked to it. *)
Definition main_output (t : tool) (name bid : string) (names : list string)
    (dry_run verbose : bool) (rowcount : nat) : list msg :=
  (if verbose then [MsgInfoBoard name bid] else []) ++
  match names with
  | [] => [MsgNoImages]
  | _ =>
      (if verbose then [MsgInfoFound (length names)] else []) ++
      (if dry_run then
         MsgDryHeader (label t) :: (MsgDryItem <$> names)
         ++ [MsgDryTotal (length names)]
       else
         (if verbose then [MsgInfoUpdating (length names) (label t);
                           MsgOkUpdated rowcount] else [])
         ++ [MsgUpdatedTotal rowcount (label t)])
  end.


(** *** A small catalog to run the tools on *)

Definition ex_row (name category origin : string) : image_row :=
  ImageRow name origin category 64 48 None 1 "2024-05-01 10:00:00.000000"
    "2024-05-02 11:30:00.000000" 0 None.

Definition ex_db : db :=
  Db [ex_row "a.png" "general" "internal"; ex_row "b.png" "general" "internal"]
     [BoardRow "id-1" "My Board"; BoardRow "id-2" "Empty"]
     [BoardImageRow "id-1" "a.png"; BoardImageRow "id-1" "gone.png"].

Definition ex_world : world := World ex_db ∅ [].

(** Two boards whose names differ by case only. *)
Definition ex_case_db : db :=
  Db [] [BoardRow "id-1" "Foo"; BoardRow "id-2" "foo"] [].

(** The count a run prints in its closing line. *)
Definition closing_count (log : list msg) : option nat :=
  match last log with
  | Some (MsgDryTotal n) | Some (MsgUpdatedTotal n _) => Some n
  | _ => None
  end.

End ReclassifySpec.

(** ** The restore tool *)

Module RestoreSpec.
Import RestoreImagesDB.



(** [meta_json], as [load_png_metadata] computes it from the text chunk. *)
Definition meta_json_of (rt : runtime) (img : image) : json :=
  match info_invokeai_metadata img with
  | Some raw =>
      if bool_decide (raw = "") then JNull
      else match json_loads rt raw with Some j => j | None => JNull end
  | None => JNull
  end.

(** The outcome of [detect_created_at] as a function of the metadata and of
    the disk entry of the file. *)
Definition created_at_of (rt : runtime) (meta_json : json) (nd : option node)
    : result string :=
  let of_mtime :=
    match nd with
    | Some (File mt _) | Some (Dir mt) =>
        Returned (strftime "%Y-%m-%d %H:%M:%S.%f" mt)
    | None => Raised (OSError "No such file or directory")
    end in
  if truthy meta_json then
    match meta_json with
    | JObj items =>
        match scan_keys rt items candidate_keys None with
        | Some dt => Returned (strftime "%Y-%m-%d %H:%M:%S.%f" dt)
        | None => of_mtime
        end
    | _ => Raised AttributeError
    end
  else of_mtime.

(** What the loop body is going to do with a file, decided by the names in
    [images] and by the disk entry of the file. *)
Inductive file_class :=
| Unrelated                 (* not below the image root: [ValueError] *)
| Known (name : string)     (* already cataloged: skipped *)
| Unreadable (e : exn)      (* Pillow cannot open it: logged, skipped *)
| BadMetadata (e : exn)     (* [detect_created_at] raises: not caught *)
| New (name : string) (img : image) (created : string).

Definition classify (rt : runtime) (images_root p : path) (d : db)
    (nd : option node) : file_class :=
  match relative_to p images_root with
  | None => Unrelated
  | Some rel =>
      let name := path_str rel in
      if bool_decide (name ∈ image_name <$> images d) then Known name
      else
        match nd with
        | Some (File _ (Some img)) =>
            match created_at_of rt (meta_json_of rt img) nd with
            | Raised e => BadMetadata e
            | Returned created => New name img created
            end
        | Some (File _ None) => Unreadable (OSError "cannot identify image file")
        | Some (Dir _) => Unreadable (OSError "Is a directory")
        | None => Unreadable (OSError "No such file or directory")
        end
  end.

(** The row [insert_image] writes. *)
Definition new_row (name : string) (img : image) (created : string) : image_row :=
  ImageRow name "internal" "general" (img_size img).1 (img_size img).2
    (info_invokeai_metadata img) 0 created created
    (match info_invokeai_graph img with Some _ => 1 | None => 0 end) None.

(** The world once a new file is cataloged and linked (or, in a dry run,
    reported so). *)
Definition cataloged (a : args) (bid : string) (p : path) (name : string)
    (img : image) (created : string) (w : world) : world :=
  if arg_dry_run a then
    printed w
      ((if arg_verbose a then [MsgFile p name] else [])
       ++ [MsgDryInsert name "general" "internal" 0
             (match info_invokeai_graph img with Some _ => 1 | None => 0 end)]
       ++ (if arg_verbose a then [MsgDryLink name bid] else []))
  else
    World (Db (images (conn w) ++ [new_row name img created])
             (boards (conn w))
             (insert_or_ignore_link (BoardImageRow bid name)
                (board_images (conn w))))
      (disk w)
      (stdout w ++ (if arg_verbose a
                    then [MsgFile p name; MsgInsert name; MsgLinked name bid]
                    else [])).

(** The rows of [images], and of [board_images], that carry a given
    image name. *)
Definition rows_named (name : string) (rows : list image_row) : list image_row :=
  filter (fun r => image_name r = name) rows.

Definition links_named (name : string) (links : list board_image_row)
    : list board_image_row :=
  filter (fun l => bi_image_name l = name) links.

(** What a run keeps of a name that is cataloged: its rows and its links. *)
Definition keeps_name (name : string) (rows : list image_row)
    (links : list board_image_row) (w : world) : Prop :=
  name ∈ image_name <$> images (conn w)
  /\ rows_named name (images (conn w)) = rows
  /\ links_named name (board_images (conn w)) = links.

(** The identifier of the board of a run: that of the first board with
    today's name, or else the fresh one. *)
Definition import_board_name (rt : runtime) : string :=
  "Recovered " +:+ strftime "%d-%m-%y" (datetime_now rt).

Definition import_board_id (rt : runtime) (d : db) : string :=
  match fetchone (filter (fun b => board_name b = import_board_name rt) (boards d)) with
  | Some row => board_id row
  | None => uuid4 rt
  end.

(** The additions of [wr] over [w0] that [log] announces: every row added
    to [images] by a would-be insert with the row's name and classification,
    every board added by a would-be creation, every link added by a would-be
    link, and every regular file added by a would-be thumbnail. *)
Definition reported (log : list msg) (w0 wr : world) : Prop :=
  (forall r, r ∈ images (conn wr) ->
     r ∈ images (conn w0)
     \/ MsgDryInsert (image_name r) (image_category r) (image_origin r)
          (is_intermediate r) (has_workflow r) ∈ log)
  /\ (forall b, b ∈ boards (conn wr) ->
     b ∈ boards (conn w0) \/ MsgDryBoardCreate (board_name b) (board_id b) ∈ log)
  /\ (forall l, l ∈ board_images (conn wr) ->
     l ∈ board_images (conn w0)
     \/ MsgDryLink (bi_image_name l) (bi_board_id l) ∈ log)
  /\ (forall q mt c, disk wr !! q = Some (File mt c) ->
     disk w0 !! q = Some (File mt c) \/ MsgDryThumb q ∈ log).

(** The messages by which a dry run without [--verbose] can report. *)
Definition quiet_msg (m : msg) : Prop :=
  match m with
  | MsgDryInsert _ _ _ _ _ | MsgErrRead _ _ => True
  | _ => False
  end.

(** What a verbose dry run announces for a file classified as new. *)
Definition announced (rt : runtime) (outs : path) (gen : bool) (bid : string)
    (w0 : world) (p : path) (log : list msg) : Prop :=
  forall name img created,
    classify rt (outs ++ ["images"]) p (conn w0) (disk w0 !! p)
    = New name img created ->
    MsgDryInsert name "general" "internal" 0
      (match info_invokeai_graph img with Some _ => 1 | None => 0 end) ∈ log
    /\ MsgDryLink name bid ∈ log
    /\ (gen = true -> forall q,
          get_thumbnail_path outs p = Returned q ->
          disk w0 !! q = None -> MsgDryThumb q ∈ log).

(** What a real run has added to [images], [board_images] and the disk is
    owed to a file of the run that was new in the initial world [w0]. *)
Definition justified (rt : runtime) (outs : path) (gen : bool) (bid : string)
    (w0 : world) (files : list path) (bs : list board_row) (wr : world) : Prop :=
  let new p name img created :=
    p ∈ files
    /\ classify rt (outs ++ ["images"]) p (conn w0) (disk w0 !! p)
       = New name img created in
  disk w0 ⊆ disk wr
  /\ boards (conn wr) = bs
  /\ (forall n, n ∈ image_name <$> images (conn w0) ->
        n ∈ image_name <$> images (conn wr))
  /\ (forall r, r ∈ images (conn wr) ->
        r ∈ images (conn w0)
        \/ exists p img created,
             new p (image_name r) img created
             /\ r = new_row (image_name r) img created)
  /\ (forall l, l ∈ board_images (conn wr) ->
        l ∈ board_images (conn w0)
        \/ exists p img created,
             new p (bi_image_name l) img created /\ bi_board_id l = bid)
  /\ (forall q mt c, disk wr !! q = Some (File mt c) ->
        disk w0 !! q = Some (File mt c)
        \/ exists p name img created,
             new p name img created /\ gen = true
             /\ get_thumbnail_path outs p = Returned q /\ disk w0 !! q = None).

(** *** Small worlds to run the restore tool on *)

Definition ex_now : datetime := DateTime 2025 11 21 9 30 0 0.
Definition ex_mtime : datetime := DateTime 2024 3 5 18 45 12 250000.

Definition dq : string := String (ascii_of_nat 34) "".

(** The text chunk [{"created": "2024-01-02T03:04:05.000000Z"}]. *)
Definition ex_meta_text : string :=
  "{" +:+ dq +:+ "created" +:+ dq +:+ ": " +:+ dq
  +:+ "2024-01-02T03:04:05.000000Z" +:+ dq +:+ "}".

(** [json.loads] on the three texts that occur in the examples. *)
Definition ex_loads (s : string) : option json :=
  if decide (s = ex_meta_text)
  then Some (JObj [("created", JStr "2024-01-02T03:04:05.000000Z")])
  else if decide (s = "[1]") then Some (JArr [JNum 1])
  else if decide (s = "{}") then Some (JObj [])
  else None.

Definition ex_rt : runtime :=
  py_runtime ex_loads ex_now "5d0c7a52-9f1e-4c0b-8a53-0e2f6b1d9c77".

Definition ex_outputs : path := ["/"; "srv"; "outputs"].

Definition ex_img_a : image := Image (1024, 768) (Some ex_meta_text) (Some "{}") true.
Definition ex_img_b : image := Image (512, 512) None None true.
Definition ex_img_truncated : image := Image (512, 512) None None false.
Definition ex_img_sliver : image := Image (1000, 1) None None true.
Definition ex_img_listmeta : image := Image (64, 64) (Some "[1]") None true.

Definition ex_disk : gmap path node :=
  list_to_map
    [(ex_outputs ++ ["images"; "a.png"], File ex_mtime (Some ex_img_a));
     (ex_outputs ++ ["images"; "sub"; "b.png"], File ex_mtime (Some ex_img_b));
     (ex_outputs ++ ["images"; "broken.png"], File ex_mtime None);
     (ex_outputs ++ ["images"; "thumbnails"; "a.webp"], File ex_mtime None)].

(** A disk whose first file fails only once its pixels are needed. *)
Definition ex_disk_with (first : image) : gmap path node :=
  list_to_map
    [(ex_outputs ++ ["images"; "a.png"], File ex_mtime (Some first));
     (ex_outputs ++ ["images"; "b.png"], File ex_mtime (Some ex_img_b))].

Definition ex_cataloged_row : image_row :=
  ImageRow "a.png" "external" "user" 1024 768 None 0
    "2024-01-02 03:04:05.000000" "2024-01-02 03:04:05.000000" 1 None.

Definition ex_restore_world : world :=
  World (Db [ex_cataloged_row] [] [BoardImageRow "some-board" "a.png"]) ex_disk [].

Definition ex_fresh_world (fs : gmap path node) : world :=
  World (Db [] [] []) fs [].

(** Today's board exists and already holds links for the two files, which
    have no row in [images]. *)
Definition ex_linked_world : world :=
  World (Db [] [BoardRow "b-1" "Recovered 21-11-25"]
            [BoardImageRow "b-1" "a.png"; BoardImageRow "b-1" "b.png"])
    (ex_disk_with ex_img_b) [].

End RestoreSpec.

(** * Verification *)

(** ** Running monadic code *)

Ltac py_unfold :=
  unfold bind, ret, raise, try_except, print, when, get_conn, put_conn,
    get_disk, put_disk in *.

Ltac py_simpl := py_unfold; simpl in *.

Lemma world_eta (w : world) : World (conn w) (disk w) (stdout w) = w.
Proof. by destruct w. Qed.

Lemma bind_run {A B} (m : Py A) (k : A -> Py B) (w w' : world) (a : A) :
  m w = (Returned a, w') -> bind m k w = k a w'.
Proof. unfold bind. by intros ->. Qed.

Lemma bind_raised {A B} (m : Py A) (k : A -> Py B) (w w' : world) (e : exn) :
  m w = (Raised e, w') -> bind m k w = (Raised e, w').
Proof. unfold bind. by intros ->. Qed.

Lemma try_except_returned {A} (body : Py A) catches handler w w' (a : A) :
  body w = (Returned a, w') -> try_except body catches handler w = (Returned a, w').
Proof. unfold try_except. by intros ->. Qed.

Lemma when_print_run (b : bool) (m : msg) (w : world) :
  when b (print m) w
  = (Returned tt,
     World (conn w) (disk w) (stdout w ++ (if b then [m] else []))).
Proof. destruct b; simpl; [done|]. by rewrite app_nil_r, world_eta. Qed.

Lemma db_eta (d : db) : Db (images d) (boards d) (board_images d) = d.
Proof. by destruct d. Qed.

(** ** The reclassification tools *)

Module ReclassifyFacts.
Import Reclassify ReclassifySpec.

Section Facts.

Variable t : tool.

Lemma set_class_name r : image_name (set_class t r) = image_name r.
Proof. done. Qed.

Lemma set_class_idemp r : set_class t (set_class t r) = set_class t r.
Proof. done. Qed.

(** The rows matched by a name are as many before and after an update:
    updates leave [image_name] alone. *)
Lemma update_where_name_names name rows :
  image_name <$> (update_where_name t name rows).1 = image_name <$> rows.
Proof.
  unfold update_where_name; simpl. rewrite <- list_fmap_compose.
  apply list_fmap_ext. intros _ r _. simpl. by case_decide.
Qed.

Lemma count_by_names (n : string) (rows rows' : list image_row) :
  image_name <$> rows = image_name <$> rows' ->
  length (filter (fun r => image_name r = n) rows)
  = length (filter (fun r => image_name r = n) rows').
Proof.
  revert rows'. induction rows as [|r rows IH]; intros [|r' rows'] H;
    simpl in H; try discriminate; [done|].
  injection H as Hr Hrows. rewrite !filter_cons, <- Hr.
  case_decide; simpl; by rewrite (IH rows').
Qed.

(** Number of rows of [rows] an [UPDATE ... WHERE image_name = n] changes. *)
Lemma executemany_spec names : forall rows acc,
  executemany t names rows acc
  = ((fun r => if decide (image_name r ∈ names) then set_class t r else r) <$> rows,
     (acc + sum_list ((fun n => length (filter (fun r => image_name r = n) rows))
                        <$> names))%nat).
Proof.
  induction names as [|n names IH]; intros rows acc; simpl.
  - f_equal; [|lia]. rewrite <- (list_fmap_id rows) at 1.
    by apply list_fmap_ext.
  - rewrite IH. f_equal.
    + rewrite <- list_fmap_compose. apply list_fmap_ext. intros _ r _. simpl.
      repeat case_decide; simpl in *; try done; exfalso; set_solver by eauto.
    + rewrite <- Nat.add_assoc. do 3 f_equal.
      apply list_fmap_ext. intros _ m _. simpl.
      apply count_by_names, (update_where_name_names n rows).
Qed.



Lemma reclassified_nil rows : reclassified t [] rows = rows.
Proof.
  unfold reclassified. rewrite <- (list_fmap_id rows) at 2.
  by apply list_fmap_ext.
Qed.

Lemma print_each_dry (names : list string) (w : world) :
  (fix each (l : list string) : Py unit :=
     match l with
     | [] => ret tt
     | name :: rest => print (MsgDryItem name) ;; each rest
     end) names w
  = (Returned tt, World (conn w) (disk w) (stdout w ++ (MsgDryItem <$> names))).
Proof.
  revert w. induction names as [|n names IH]; intros w; simpl.
  - by rewrite app_nil_r, world_eta.
  - py_simpl. rewrite IH. simpl. by rewrite <- app_assoc.
Qed.

Lemma mark_images_dry names verbose w :
  mark_images t names true verbose w
  = (Returned (length names),
     World (conn w) (disk w)
       (stdout w ++ match names with
                    | [] => []
                    | _ => MsgDryHeader (label t) :: (MsgDryItem <$> names)
                    end)).
Proof.
  destruct names as [|n names]; simpl.
  - by rewrite app_nil_r, world_eta.
  - unfold bind at 1 2 3. unfold print at 1. simpl.
    unfold print at 1. unfold bind at 1. simpl. rewrite print_each_dry.
    simpl. unfold ret. by rewrite <- !app_assoc.
Qed.

Lemma mark_images_real names verbose w :
  let r := mark_images t names false verbose w in
  let rowcount :=
    sum_list ((fun n => length (filter (fun r => image_name r = n)
                                         (images (conn w)))) <$> names) in
  r.1 = Returned rowcount
  /\ images (conn r.2) = reclassified t names (images (conn w))
  /\ boards (conn r.2) = boards (conn w)
  /\ board_images (conn r.2) = board_images (conn w)
  /\ disk r.2 = disk w
  /\ stdout r.2
     = stdout w ++ match names with
                   | [] => []
                   | _ => if verbose
                          then [MsgInfoUpdating (length names) (label t);
                                MsgOkUpdated rowcount]
                          else []
                   end.
Proof.
  destruct names as [|n names].
  - simpl. by rewrite reclassified_nil, app_nil_r.
  - cbv zeta. unfold mark_images.
    destruct verbose; py_unfold; cbn -[executemany sum_list];
      rewrite executemany_spec; cbn -[sum_list];
      rewrite ?app_nil_r, <- ?app_assoc; done.
Qed.

Lemma get_board_id_by_name_run name w :
  get_board_id_by_name t name w
  = match fetchone (select_board_ci name (conn w)) with
    | None => (Raised (SystemExit ("Board with name '" +:+ name +:+ "'"
                                   +:+ not_found t)), w)
    | Some bid => (Returned bid, w)
    end.
Proof.
  unfold get_board_id_by_name. py_unfold.
  by destruct (fetchone (select_board_ci name (conn w))).
Qed.

Lemma reclassify_main_run name dry_run verbose w bid names :
  get_board_id_by_name t name w = (Returned bid, w) ->
  get_images_for_board bid w = (Returned names, w) ->
  let rowcount :=
    sum_list ((fun n => length (filter (fun r => image_name r = n)
                                         (images (conn w)))) <$> names) in
  let r := main t (Args name dry_run verbose) w in
  r.1 = Returned tt
  /\ images (conn r.2)
     = (if dry_run then images (conn w)
        else reclassified t names (images (conn w)))
  /\ boards (conn r.2) = boards (conn w)
  /\ board_images (conn r.2) = board_images (conn w)
  /\ disk r.2 = disk w
  /\ stdout r.2 = stdout w ++ main_output t name bid names dry_run verbose rowcount.
Proof.
  intros Hb Hn rowcount r. subst r. unfold main.
  cbn [arg_board_name arg_dry_run arg_verbose].
  erewrite bind_run; [|by apply try_except_returned].
  erewrite bind_run; [|apply when_print_run].
  erewrite bind_run; [|reflexivity]. cbn [conn].
  injection Hn as Hn. rewrite Hn. unfold main_output.
  destruct names as [|n names].
  { simpl. rewrite <- app_assoc. by destruct dry_run; rewrite ?reclassified_nil. }
  erewrite bind_run; [|apply when_print_run].
  destruct dry_run.
  - erewrite bind_run; [|apply mark_images_dry].
    simpl. rewrite <- ?app_assoc. simpl. by rewrite <- ?app_assoc.
  - pose proof (mark_images_real (n :: names) verbose
      (World (conn w) (disk w)
         ((stdout w ++ (if verbose then [MsgInfoBoard name bid] else [])) ++
          (if verbose then [MsgInfoFound (length (n :: names))] else []))))
      as (H1 & H2 & H3 & H4 & H5 & H6).
    destruct (mark_images _ _ _ _ _) as [res w2] eqn:Hm.
    simpl in H1. subst res. erewrite bind_run; [|exact Hm].
    cbn [conn disk stdout fst snd] in *. unfold print. cbn [conn disk stdout fst snd].
    rewrite H2, H3, H4, H5, H6. repeat split; try done.
    rewrite <- !app_assoc. done.
Qed.

Lemma select_board_ci_first name d pre b post :
  boards d = pre ++ b :: post ->
  LOWER (board_name b) = LOWER name ->
  (forall b', b' ∈ pre -> LOWER (board_name b') <> LOWER name) ->
  fetchone (select_board_ci name d) = Some (board_id b).
Proof.
  unfold select_board_ci. intros -> Hb Hpre.
  induction pre as [|b' pre IH]; simpl.
  - by rewrite filter_cons_True.
  - rewrite filter_cons_False by (apply Hpre; by left).
    apply IH. intros b'' Hin. apply Hpre. by right.
Qed.

Lemma select_board_ci_none name d :
  fetchone (select_board_ci name d) = None
  <-> forall b, b ∈ boards d -> LOWER (board_name b) <> LOWER name.
Proof.
  unfold select_board_ci. induction (boards d) as [|b bs IH]; simpl.
  - split; [|done]. intros _ b Hb. by apply elem_of_nil in Hb.
  - rewrite filter_cons. case_decide as Hb; simpl.
    + split; [done|]. intros Hall. exfalso. by apply (Hall b); [left|].
    + rewrite IH. split.
      * intros Hall b' [->|Hin]%elem_of_cons; auto.
      * intros Hall b' Hin. apply Hall. by right.
Qed.

Lemma main_unknown_board a w :
  (forall b, b ∈ boards (conn w) ->
     LOWER (board_name b) <> LOWER (arg_board_name a)) ->
  main t a w
  = (Raised (SystemExit ("Board with name '" +:+ arg_board_name a +:+ "'"
                         +:+ not_found t)), w).
Proof.
  intros Hnone%select_board_ci_none. unfold main.
  apply bind_raised. unfold try_except.
  by rewrite get_board_id_by_name_run, Hnone.
Qed.

End Facts.

End ReclassifyFacts.

Import Reclassify ReclassifySpec ReclassifyFacts.


(** C5. When no board's name equals the given one up to ASCII case, either
    tool ends by [SystemExit] with a message, which the interpreter turns
    into exit status 1, and leaves the whole world as it found it. *)
Theorem unknown_board_aborts (a : args) (w : world) :
  (forall b, b ∈ boards (conn w) ->
     LOWER (board_name b) <> LOWER (arg_board_name a)) ->
  (exists message,
      ConvertBoardToAssets.script a w = (Raised (SystemExit message), w)
      /\ message <> "")
  /\ exit_status (ConvertBoardToAssets.script a w) = 1
  /\ (exists message,
      ConvertAssetsToBoard.script a w = (Raised (SystemExit message), w)
      /\ message <> "")
  /\ exit_status (ConvertAssetsToBoard.script a w) = 1.
Proof.
  intros Hnone.
  unfold ConvertBoardToAssets.script, ConvertBoardToAssets.main,
    ConvertAssetsToBoard.script, ConvertAssetsToBoard.main.
  rewrite (bind_raised _ _ _ _ _ (main_unknown_board _ a w Hnone)).
  rewrite (main_unknown_board _ a w Hnone).
  repeat split; try done; eexists; (split; [done|done]).
Qed.

Lemma fetchone_select_board_ci (name : string) (d : db) (bid : string) :
  fetchone (select_board_ci name d) = Some bid ->
  exists b, b ∈ boards d /\ LOWER (board_name b) = LOWER name /\ board_id b = bid.
Proof.
  unfold fetchone, select_board_ci. intros H.
  destruct (filter _ (boards d)) as [|b bs] eqn:Hf; [done|].
  simpl in H. injection H as <-.
  assert (Hin : b ∈ filter (fun b => LOWER (board_name b) = LOWER name) (boards d))
    by (rewrite Hf; by left).
  apply list_elem_of_filter in Hin as [? ?]. by exists b.
Qed.

(** C9, as it holds. Resolution returns the identity of the first stored
    board whose name equals the query up to ASCII letter case: that of a
    given board when no board stored before it matches as well, and in
    particular when it is the only match. It ends in [SystemExit] exactly
    when no stored board matches. *)
Theorem board_resolution_first_match (t : tool) (name : string) (w : world) :
  (forall pre b post,
      boards (conn w) = pre ++ b :: post ->
      LOWER (board_name b) = LOWER name ->
      (forall b', b' ∈ pre -> LOWER (board_name b') <> LOWER name) ->
      get_board_id_by_name t name w = (Returned (board_id b), w))
  /\ (forall b,
      b ∈ boards (conn w) ->
      LOWER (board_name b) = LOWER name ->
      (forall b', b' ∈ boards (conn w) ->
         LOWER (board_name b') = LOWER name -> b' = b) ->
      get_board_id_by_name t name w = (Returned (board_id b), w))
  /\ ((exists b, b ∈ boards (conn w) /\ LOWER (board_name b) = LOWER name) ->
      exists b, b ∈ boards (conn w) /\ LOWER (board_name b) = LOWER name
                /\ get_board_id_by_name t name w = (Returned (board_id b), w))
  /\ ((exists e, (get_board_id_by_name t name w).1 = Raised e)
      <-> forall b, b ∈ boards (conn w) -> LOWER (board_name b) <> LOWER name).
Proof.
  assert (Hfirst : forall pre b post,
      boards (conn w) = pre ++ b :: post ->
      LOWER (board_name b) = LOWER name ->
      (forall b', b' ∈ pre -> LOWER (board_name b') <> LOWER name) ->
      get_board_id_by_name t name w = (Returned (board_id b), w)).
  { intros pre b post Hsplit Hb Hpre. rewrite get_board_id_by_name_run.
    by rewrite (select_board_ci_first name _ pre b post). }
  split; [exact Hfirst|]. split; [|split].
  - intros b Hin Hb Huniq.
    apply list_elem_of_split_l in Hin as (pre & post & Hsplit & Hpre).
    apply (Hfirst pre b post Hsplit Hb). intros b' Hb' Heq.
    assert (b' = b) as -> by (apply Huniq; [rewrite Hsplit; set_solver|done]).
    done.
  - intros (b0 & Hin0 & Hb0). rewrite get_board_id_by_name_run.
    destruct (fetchone _) as [bid|] eqn:Hf.
    + apply fetchone_select_board_ci in Hf as (b & ? & ? & <-). by exists b.
    + exfalso. by apply (proj1 (select_board_ci_none name (conn w)) Hf b0).
  - rewrite get_board_id_by_name_run, <- select_board_ci_none.
    destruct (fetchone _); simpl; split; try done.
    + by intros [e ?].
    + by eexists.
Qed.


Ltac by_decide :=
  match goal with
  | |- ?G => apply (@bool_decide_unpack G _); vm_compute; exact I
  end.

Ltac by_decide_forall :=
  match goal with
  | |- forall x, x ∈ ?l -> @?P x => apply (proj1 (Forall_forall P l)); by_decide
  end.


Lemma unknown_board_aborts_witness :
  exit_status (ConvertAssetsToBoard.script (Args "Nope" false false) ex_world) = 1.
Proof.
  refine (proj2 (proj2 (proj2 (unknown_board_aborts (Args "Nope" false false)
                                 ex_world _)))).
  by_decide_forall.
Defined.

(** C9, as stated, fails: of two boards whose names differ by case only,
    the second is never the one resolved. *)
Lemma board_resolution_counterexample :
  ~ (forall b name,
       b ∈ boards ex_case_db ->
       LOWER name = LOWER (board_name b) ->
       ConvertBoardToAssets.get_board_id_by_name name (World ex_case_db ∅ [])
       = (Returned (board_id b), World ex_case_db ∅ [])).
Proof.
  intros H. specialize (H (BoardRow "id-2" "foo") "foo").
  assert (Hin : BoardRow "id-2" "foo" ∈ boards ex_case_db) by by_decide.
  specialize (H Hin eq_refl). vm_compute in H. discriminate H.
Qed.

Lemma board_resolution_first_match_witness :
  ConvertAssetsToBoard.get_board_id_by_name "MY BOARD" ex_world
  = (Returned "id-1", ex_world).
Proof.
  refine (proj1 (proj2 (board_resolution_first_match ConvertAssetsToBoard.tool
                          "MY BOARD" ex_world))
            (BoardRow "id-1" "My Board") _ eq_refl _).
  - by_decide.
  - by_decide_forall.
Defined.


(** ** The restore tool *)

Import RestoreImagesDB RestoreSpec.

(** *** Paths *)

Lemma relative_to_app (root rel : path) : relative_to (root ++ rel) root = Some rel.
Proof.
  induction root as [|r root IH].
  - by destruct rel.
  - simpl. by rewrite decide_True.
Qed.

Lemma relative_to_Some (p root rel : path) :
  relative_to p root = Some rel <-> p = root ++ rel.
Proof.
  split; [|intros ->; apply relative_to_app].
  revert p. induction root as [|r root IH]; intros p; simpl.
  - destruct p; by intros [= ->].
  - destruct p as [|x p]; [done|]. simpl. case_decide; [|done].
    intros ->%IH. by subst.
Qed.









(** The root itself has no last part to rename. *)
Lemma get_thumbnail_path_root (root : path) :
  get_thumbnail_path root root = Raised IndexError.
Proof.
  unfold get_thumbnail_path.
  assert (relative_to root root = Some []) as ->; [|done].
  apply relative_to_Some. by rewrite app_nil_r.
Qed.



(** *** The creation time *)

Section CreatedAt.

Variable rt : runtime.







End CreatedAt.


(** *** Thumbnails *)

Lemma bind_inv {A B} (m : Py A) (k : A -> Py B) (w w' : world) (b : B) :
  bind m k w = (Returned b, w') ->
  exists a w1, m w = (Returned a, w1) /\ k a w1 = (Returned b, w').
Proof.
  unfold bind. destruct (m w) as [[e|a] w1]; [done|]. intros H. by exists a, w1.
Qed.

Section Thumbnails.

Variable rt : runtime.

Lemma ensure_thumbnail_present (root p tp : path) (dry_run verbose : bool)
    (img : option image) (w : world) :
  get_thumbnail_path root p = Returned tp ->
  is_Some (disk w !! tp) ->
  ensure_thumbnail rt root p dry_run verbose img w = (Returned tt, w).
Proof.
  intros Htp [nd Hnd]. unfold ensure_thumbnail, lift. py_unfold.
  by rewrite Htp, Hnd.
Qed.

(** Making directories and printing do not touch what is already on disk. *)
Lemma mkdirs_disk (dirs : list path) : forall (w w' : world) (r : result unit),
  mkdirs rt dirs w = (r, w') ->
  conn w' = conn w /\ stdout w' = stdout w /\ disk w ⊆ disk w'
  /\ forall q mt c, disk w' !! q = Some (File mt c) -> disk w !! q = Some (File mt c).
Proof.
  induction dirs as [|d dirs IH]; intros w w' r; simpl.
  - intros [= <- <-]. done.
  - py_unfold. destruct (disk w !! d) as [[mt|mt c]|] eqn:Hd.
    + apply IH.
    + intros [= <- <-]. done.
    + simpl. intros (Hc & Hs & Hsub & Hfile)%IH. simpl in *.
      repeat split; try done.
      * etrans; [|exact Hsub]. by apply insert_subseteq.
      * intros q mt c Hq. specialize (Hfile q mt c Hq).
        destruct (decide (d = q)) as [->|Hne].
        -- by rewrite lookup_insert_eq in Hfile.
        -- by rewrite lookup_insert_ne in Hfile.
Qed.

(** A real call that returns has left the thumbnail on disk. *)
Lemma ensure_thumbnail_real_returned (root p : path) (verbose : bool)
    (img : option image) (w w1 : world) :
  ensure_thumbnail rt root p false verbose img w = (Returned tt, w1) ->
  exists tp, get_thumbnail_path root p = Returned tp /\ is_Some (disk w1 !! tp).
Proof.
  unfold ensure_thumbnail. intros (tp & w0 & Htp & H)%bind_inv.
  unfold lift in Htp. injection Htp as Htp <-. exists tp. split; [done|].
  apply bind_inv in H as (fs & w0 & Hfs & H). unfold get_disk in Hfs.
  injection Hfs as <- <-.
  destruct (disk w !! tp) as [nd|] eqn:Hnd.
  { injection H as <-. by rewrite Hnd. }
  apply bind_inv in H as ([] & w2 & _ & H).
  apply bind_inv in H as (i & w3 & _ & H).
  apply bind_inv in H as ([] & w4 & Hsave & H).
  rewrite when_print_run in H. injection H as <-. simpl.
  unfold convert_resize_save in Hsave.
  destruct (pixels_ok i); [|done].
  destruct (thumb_size (img_size i)) as [new_w new_h].
  destruct (_ && _); [|done]. py_simpl. injection Hsave as <-. simpl.
  by rewrite lookup_insert_eq.
Qed.

End Thumbnails.

(** C8. When the derived thumbnail path exists, [ensure_thumbnail] returns
    at once and leaves the catalog, the disk and the output as they were,
    whatever its flags. After a real call that returned, the path exists, so
    that any further call for the same file is such a no-op. *)
Theorem thumbnail_generation_once (rt : runtime) (root p : path)
    (dry_run verbose : bool) (img : option image) (w : world) :
  (forall tp,
      get_thumbnail_path root p = Returned tp ->
      is_Some (disk w !! tp) ->
      ensure_thumbnail rt root p dry_run verbose img w = (Returned tt, w))
  /\ (forall w1,
      ensure_thumbnail rt root p false verbose img w = (Returned tt, w1) ->
      forall dry_run' verbose' img',
        ensure_thumbnail rt root p dry_run' verbose' img' w1 = (Returned tt, w1)).
Proof.
  split.
  - intros tp. apply ensure_thumbnail_present.
  - intros w1 (tp & Htp & Hex)%ensure_thumbnail_real_returned dry' verbose' img'.
    by apply (ensure_thumbnail_present rt root p tp).
Qed.

(** *** The loop of [main], file by file *)

Section LoopBody.

Variable rt : runtime.

Lemma image_exists_run (name : string) (w : world) :
  image_exists name w
  = (Returned (bool_decide (name ∈ image_name <$> images (conn w))), w).
Proof.
  unfold image_exists. py_unfold. f_equal. f_equal.
  induction (images (conn w)) as [|r rows IH]; [done|].
  rewrite filter_cons, fmap_cons.
  destruct (decide (image_name r = name)) as [<-|Hne]; simpl.
  - symmetry. apply bool_decide_eq_true. by left.
  - rewrite IH. apply bool_decide_ext. set_solver.
Qed.

Lemma load_png_metadata_run (p : path) (w : world) :
  load_png_metadata rt p w
  = (match disk w !! p with
     | Some (File _ (Some img)) =>
         Returned (img, info_invokeai_metadata img, meta_json_of rt img,
                   info_invokeai_graph img,
                   match info_invokeai_graph img with
                   | Some _ => true | None => false
                   end)
     | Some (File _ None) => Raised (OSError "cannot identify image file")
     | Some (Dir _) => Raised (OSError "Is a directory")
     | None => Raised (OSError "No such file or directory")
     end, w).
Proof.
  unfold load_png_metadata, Image_open. py_unfold.
  by destruct (disk w !! p) as [[mt|mt [img|]]|].
Qed.

Lemma detect_created_at_run (meta_json : json) (p : path) (w : world) :
  detect_created_at rt meta_json p w
  = (created_at_of rt meta_json (disk w !! p), w).
Proof.
  unfold detect_created_at, created_at_of, stat_mtime. py_unfold.
  destruct (truthy meta_json).
  - destruct meta_json; try done.
    destruct (scan_keys rt items candidate_keys None); [done|].
    by destruct (disk w !! p) as [[mt|mt c]|].
  - by destruct (disk w !! p) as [[mt|mt c]|].
Qed.

Lemma insert_image_run (name : string) (img : image) (created : string)
    (dry_run verbose : bool) (w : world) :
  insert_image name img (info_invokeai_metadata img)
    (match info_invokeai_graph img with Some _ => true | None => false end)
    created dry_run verbose w
  = (Returned tt,
     if dry_run then
       printed w [MsgDryInsert name "general" "internal" 0
                    (match info_invokeai_graph img with Some _ => 1 | None => 0 end)]
     else
       World (Db (images (conn w) ++ [new_row name img created])
                (boards (conn w)) (board_images (conn w)))
         (disk w) (stdout w ++ if verbose then [MsgInsert name] else [])).
Proof.
  unfold insert_image, new_row, printed. destruct (img_size img) as [wd ht].
  destruct dry_run; [by destruct (info_invokeai_graph img)|].
  py_unfold. destruct verbose, (info_invokeai_graph img); simpl;
    by rewrite ?app_nil_r.
Qed.

Lemma add_to_board_run (bid name : string) (dry_run verbose : bool) (w : world) :
  add_to_board bid name dry_run verbose w
  = (Returned tt,
     if dry_run then printed w (if verbose then [MsgDryLink name bid] else [])
     else
       World (Db (images (conn w)) (boards (conn w))
                (insert_or_ignore_link (BoardImageRow bid name)
                   (board_images (conn w))))
         (disk w) (stdout w ++ if verbose then [MsgLinked name bid] else [])).
Proof.
  unfold add_to_board, printed. destruct dry_run.
  - by rewrite when_print_run.
  - py_unfold. destruct verbose; simpl; by rewrite ?app_nil_r.
Qed.

End LoopBody.

Section LoopBodyRun.

Variable rt : runtime.

Lemma main_loop_body_run (a : args) (images_root : path) (bid : string)
    (p : path) (w : world) :
  main_loop_body rt a images_root bid p w
  = match classify rt images_root p (conn w) (disk w !! p) with
    | Unrelated =>
        (Raised (ValueError "is not in the subpath of images_root"), w)
    | Known name =>
        (Returned tt, printed w (if arg_verbose a then [MsgSkip name] else []))
    | Unreadable e => (Returned tt, printed w [MsgErrRead p (exn_str e)])
    | BadMetadata e => (Raised e, w)
    | New name img created =>
        if arg_gen_thumbs a then
          ensure_thumbnail rt (arg_outputs a) p (arg_dry_run a) (arg_verbose a)
            (Some img) (cataloged a bid p name img created w)
        else (Returned tt, cataloged a bid p name img created w)
    end.
Proof.
  unfold main_loop_body, classify.
  destruct (relative_to p images_root) as [rel|]; [|done].
  unfold bind at 1. unfold ret at 1.
  unfold bind at 1. rewrite image_exists_run.
  destruct (bool_decide _); [apply when_print_run|].
  unfold bind at 1. unfold try_except. unfold bind at 1.
  rewrite load_png_metadata_run.
  destruct (disk w !! p) as [[mt|mt [img|]]|] eqn:Hp; try done.
  unfold ret at 1. cbv iota beta.
  unfold bind at 1. rewrite detect_created_at_run, Hp.
  destruct (created_at_of rt _ _) as [e|created]; [done|].
  unfold bind at 1. rewrite when_print_run.
  unfold bind at 1. unfold try_except.
  unfold bind at 1. rewrite insert_image_run.
  unfold bind at 1. rewrite add_to_board_run.
  unfold ret at 1. cbv iota beta.
  unfold cataloged, printed.
  destruct a as [outs [] [] []]; cbn -[ensure_thumbnail new_row path_str];
    rewrite <- ?app_assoc; reflexivity.
Qed.

End LoopBodyRun.

Section Driver.

Variable rt : runtime.

Lemma ensure_import_board_run (dry_run verbose : bool) (w : world) :
  let name := "Recovered " +:+ strftime "%d-%m-%y" (datetime_now rt) in
  ensure_import_board rt dry_run verbose w
  = match fetchone (filter (fun b => board_name b = name) (boards (conn w))) with
    | Some row =>
        (Returned (board_id row),
         printed w (if verbose then [MsgBoardReuse name (board_id row)] else []))
    | None =>
        (Returned (uuid4 rt),
         if dry_run then
           printed w (if verbose then [MsgDryBoardCreate name (uuid4 rt)] else [])
         else
           World (Db (images (conn w))
                    (boards (conn w) ++ [BoardRow (uuid4 rt) name])
                    (board_images (conn w)))
             (disk w)
             (stdout w ++ if verbose then [MsgBoardCreated name (uuid4 rt)] else []))
    end.
Proof.
  cbv zeta. unfold ensure_import_board, printed.
  unfold bind at 1. unfold get_conn at 1.
  destruct (fetchone _) as [row|].
  - unfold bind. by rewrite when_print_run.
  - destruct dry_run.
    + unfold bind. by rewrite when_print_run.
    + py_unfold. destruct verbose; simpl; by rewrite ?app_nil_r.
Qed.

(** A property of the world kept by the loop body is kept by the loop. *)
Lemma for_each_inv {A} (P : world -> Prop) (l : list A) (body : A -> Py unit) :
  (forall x w, x ∈ l -> P w -> P (body x w).2) ->
  forall w, P w -> P (for_each l body w).2.
Proof.
  induction l as [|x l IH]; intros Hbody w Hw; simpl; [done|].
  unfold bind. specialize (Hbody x w) as Hx.
  destruct (body x w) as [[e|[]] w1]; simpl in *.
  - apply Hx; [by left|done].
  - apply IH; [|apply Hx; [by left|done]].
    intros y w' Hy. apply Hbody. by right.
Qed.

(** [main], as the board, then the loop, then the last message. *)
Lemma restore_main_run (a : args) (w : world) :
  main rt a w
  = let '(_, w1) := ensure_import_board rt (arg_dry_run a) (arg_verbose a) w in
    let bid :=
      match (ensure_import_board rt (arg_dry_run a) (arg_verbose a) w).1 with
      | Returned bid => bid
      | Raised _ => ""
      end in
    match for_each (png_files (disk w1) (arg_outputs a ++ ["images"]))
            (main_loop_body rt a (arg_outputs a ++ ["images"]) bid) w1 with
    | (Raised e, w2) => (Raised e, w2)
    | (Returned _, w2) =>
        (Returned tt,
         printed w2 (if negb (arg_dry_run a) || arg_verbose a
                     then [MsgDone] else []))
    end.
Proof.
  unfold main. unfold bind at 1.
  pose proof (ensure_import_board_run (arg_dry_run a) (arg_verbose a) w) as Hb.
  cbv zeta in Hb. rewrite Hb.
  destruct (fetchone _) as [row|]; cbn [fst snd];
    unfold bind at 1; unfold get_disk at 1; unfold bind at 1;
    destruct (for_each _ _ _) as [[e|[]] w2]; try done;
    apply when_print_run.
Qed.

End Driver.

Section Effects.

Variable rt : runtime.

(** [mkdirs] only adds entries for the directories it is given. *)
Lemma mkdirs_other (dirs : list path) (q : path) :
  q ∉ dirs ->
  forall (w w' : world) (r : result unit),
    mkdirs rt dirs w = (r, w') -> disk w' !! q = disk w !! q.
Proof.
  induction dirs as [|d dirs IH]; intros Hq w w' r; simpl.
  - by intros [= <- <-].
  - apply not_elem_of_cons in Hq as [Hne Hq]. py_unfold.
    destruct (disk w !! d) as [[mt|mt c]|] eqn:Hd.
    + by apply IH.
    + by intros [= <- <-].
    + simpl. intros H. rewrite (IH Hq _ _ _ H). simpl.
      by rewrite lookup_insert_ne.
Qed.

Lemma not_elem_of_prefixes (tp : path) :
  tp ∉ (fun n => take n (removelast tp)) <$> seq 1 (length (removelast tp)).
Proof.
  intros (n & Heq & Hn)%list_elem_of_fmap.
  assert (Hlen : length tp = length (take n (removelast tp))) by by rewrite <- Heq.
  rewrite length_take in Hlen.
  destruct tp as [|x tp] using rev_ind; [|clear IHtp].
  - simpl in Hn. by apply elem_of_nil in Hn.
  - rewrite removelast_last, length_app in Hlen. simpl in Hlen. lia.
Qed.

(** What a call of [ensure_thumbnail] can do to the world: the catalog is
    left alone, the disk only gains entries, and the only regular file it
    can gain is the thumbnail, at a path that was free; in a dry run the disk
    is left alone as well, and the output gains the message naming the
    thumbnail when it is missing and [verbose] is set. *)
Lemma ensure_thumbnail_effects (root p : path) (dry_run verbose : bool)
    (img : option image) (w w' : world) (res : result unit) :
  ensure_thumbnail rt root p dry_run verbose img w = (res, w') ->
  conn w' = conn w
  /\ disk w ⊆ disk w'
  /\ (dry_run = true -> disk w' = disk w)
  /\ (forall q mt c,
        disk w' !! q = Some (File mt c) ->
        disk w !! q = Some (File mt c)
        \/ (dry_run = false /\ get_thumbnail_path root p = Returned q
            /\ disk w !! q = None))
  /\ exists log,
       stdout w' = stdout w ++ log
       /\ (dry_run = true ->
           forall tp, get_thumbnail_path root p = Returned tp ->
             log = if verbose && bool_decide (disk w !! tp = None)
                   then [MsgDryThumb tp] else [])
       /\ ((exists e, get_thumbnail_path root p = Raised e) -> log = []).
Proof.
  intros H. unfold ensure_thumbnail in H. unfold bind at 1 in H. unfold lift in H.
  destruct (get_thumbnail_path root p) as [e|tp] eqn:Htp.
  { injection H as <- <-.
    split; [done|]. split; [done|]. split; [done|]. split; [by left|].
    exists []. rewrite app_nil_r. split; [done|]. split; [|done].
    by intros _ tp [=]. }
  unfold bind at 1 in H. unfold get_disk at 1 in H.
  destruct (disk w !! tp) as [nd|] eqn:Hnd.
  { injection H as <- <-.
    split; [done|]. split; [done|]. split; [done|]. split; [by left|].
    exists []. rewrite app_nil_r. split; [done|]. split; [|by intros [? ?]].
    intros _ ? [= <-]. rewrite Hnd.
    rewrite (bool_decide_eq_false_2 (Some nd = None)) by done.
    by rewrite andb_false_r. }
  destruct dry_run.
  { rewrite when_print_run in H. injection H as <- <-. simpl.
    split; [done|]. split; [done|]. split; [done|]. split; [by left|].
    eexists. split; [done|]. split; [|by intros [? ?]].
    intros _ ? [= <-]. rewrite Hnd. rewrite bool_decide_eq_true_2 by done.
    by rewrite andb_true_r. }
  assert (Hkeep : forall w1 : world,
    conn w1 = conn w -> stdout w1 = stdout w -> disk w ⊆ disk w1 ->
    (forall q mt c, disk w1 !! q = Some (File mt c) -> disk w !! q = Some (File mt c)) ->
    conn w1 = conn w /\ disk w ⊆ disk w1
    /\ (false = true -> disk w1 = disk w)
    /\ (forall q mt c, disk w1 !! q = Some (File mt c) ->
          disk w !! q = Some (File mt c)
          \/ (false = false /\ Returned tp = Returned q /\ disk w !! q = None))
    /\ exists log, stdout w1 = stdout w ++ log
       /\ (false = true -> forall tp0, Returned tp = Returned tp0 ->
             log = if verbose && bool_decide (disk w !! tp0 = None)
                   then [MsgDryThumb tp0] else [])
       /\ ((exists e0, Returned tp = Raised e0) -> log = [])).
  { intros w1 Hc Hs Hsub Hfile.
    split; [done|]. split; [done|]. split; [done|].
    split; [intros; left; by eapply Hfile|].
    exists []. rewrite app_nil_r, Hs. split; [done|]. split; [done|].
    by intros [? ?]. }
  unfold bind at 1 in H. unfold mkdir_parents in H.
  destruct (mkdirs rt _ w) as [[e|[]] w1] eqn:Hmk;
    apply mkdirs_disk in Hmk as Hd; destruct Hd as (Hc & Hs & Hsub & Hfile);
    [injection H as <- <-; by apply Hkeep|].
  pose proof (mkdirs_other _ tp (not_elem_of_prefixes tp) _ _ _ Hmk) as Htp1.
  rewrite Hnd in Htp1.
  assert (Himg : exists ri, (match img with
                             | Some i => ret i
                             | None => Image_open p
                             end) w1 = (ri, w1)).
  { destruct img; [by eexists|]. unfold Image_open. py_unfold.
    destruct (disk w1 !! p) as [[?|? [?|]]|]; by eexists. }
  destruct Himg as [ri Himg]. unfold bind at 1 in H. rewrite Himg in H.
  destruct ri as [e|i]; [injection H as <- <-; by apply Hkeep|].
  unfold bind at 1 in H. unfold convert_resize_save in H.
  destruct (pixels_ok i); [|injection H as <- <-; by apply Hkeep].
  destruct (thumb_size (img_size i)) as [new_w new_h].
  destruct (_ && _); [|injection H as <- <-; by apply Hkeep].
  unfold bind at 1 in H. unfold get_disk at 1 in H. unfold put_disk at 1 in H.
  rewrite when_print_run in H. injection H as <- <-.
  cbn [fst snd conn disk stdout].
  split; [done|]. split; [etrans; [exact Hsub|]; by apply insert_subseteq|].
  split; [done|]. split.
  - intros q mt c Hq. destruct (decide (tp = q)) as [<-|Hne].
    + right. done.
    + rewrite lookup_insert_ne in Hq by done. left. by eapply Hfile.
  - eexists. rewrite Hs. split; [done|]. split; [done|by intros [? ?]].
Qed.

End Effects.

Section Idempotence.

Variable rt : runtime.

Lemma classify_New (images_root p : path) (d : db) (nd : option node)
    (name : string) (img : image) (created : string) :
  classify rt images_root p d nd = New name img created ->
  (name ∉ image_name <$> images d)
  /\ (exists rel, relative_to p images_root = Some rel /\ name = path_str rel)
  /\ (exists mt, nd = Some (File mt (Some img)))
  /\ created_at_of rt (meta_json_of rt img) nd = Returned created.
Proof.
  unfold classify. destruct (relative_to p images_root) as [rel|]; [|done].
  case_bool_decide as Hin; [done|].
  destruct nd as [[mt|mt [i|]]|]; try done.
  destruct (created_at_of rt _ _) as [e|c] eqn:Hc; [done|].
  intros [= <- <- <-]. repeat split; try done; by eexists.
Qed.

Lemma classify_Known (images_root p rel : path) (d : db) (nd : option node) :
  relative_to p images_root = Some rel ->
  path_str rel ∈ image_name <$> images d ->
  classify rt images_root p d nd = Known (path_str rel).
Proof.
  intros Hrel Hin. unfold classify. rewrite Hrel.
  by rewrite bool_decide_eq_true_2.
Qed.

(** The catalog after a new file is cataloged: nothing changes for the rows
    and links of other names. *)
Lemma cataloged_conn (a : args) (bid : string) (p : path) (name : string)
    (img : image) (created : string) (w : world) (other : string) :
  other <> name ->
  rows_named other (images (conn (cataloged a bid p name img created w)))
  = rows_named other (images (conn w))
  /\ links_named other (board_images (conn (cataloged a bid p name img created w)))
     = links_named other (board_images (conn w))
  /\ (other ∈ image_name <$> images (conn w) ->
      other ∈ image_name <$> images (conn (cataloged a bid p name img created w))).
Proof.
  intros Hne. unfold cataloged, rows_named, links_named, insert_or_ignore_link.
  destruct (arg_dry_run a); simpl; [done|].
  rewrite filter_app, filter_cons_False, filter_nil, app_nil_r by (simpl; congruence).
  split; [done|]. split.
  - case_decide; [done|].
    by rewrite filter_app, filter_cons_False, filter_nil, app_nil_r
      by (simpl; congruence).
  - rewrite fmap_app. set_solver.
Qed.

Lemma main_loop_body_keeps_name (a : args) (images_root : path) (bid : string)
    (p : path) (name : string) rows links (w : world) :
  keeps_name name rows links w ->
  keeps_name name rows links (main_loop_body rt a images_root bid p w).2.
Proof.
  intros (Hin & Hrows & Hlinks). rewrite main_loop_body_run.
  destruct (classify rt images_root p (conn w) (disk w !! p))
    as [|known|e|e|new img created] eqn:Hcl; try done.
  apply classify_New in Hcl as (Hnew & _).
  assert (Hne : name <> new) by (by intros ->).
  destruct (cataloged_conn a bid p new img created w name Hne) as (Hr & Hl & Hi).
  assert (Hk : keeps_name name rows links (cataloged a bid p new img created w)).
  { split; [by apply Hi|]. by rewrite Hr, Hl. }
  destruct (arg_gen_thumbs a); [|done].
  destruct (ensure_thumbnail rt _ _ _ _ _ _) as [res w'] eqn:Hth.
  apply ensure_thumbnail_effects in Hth as (Hc & _). simpl.
  unfold keeps_name. by rewrite Hc.
Qed.

Lemma ensure_import_board_effects (dry_run verbose : bool) (w : world) :
  let r := ensure_import_board rt dry_run verbose w in
  r.1 = Returned (import_board_id rt (conn w))
  /\ images (conn r.2) = images (conn w)
  /\ board_images (conn r.2) = board_images (conn w)
  /\ disk r.2 = disk w
  /\ (dry_run = true -> conn r.2 = conn w)
  /\ (forall b, b ∈ boards (conn r.2) ->
        b ∈ boards (conn w)
        \/ b = BoardRow (import_board_id rt (conn w)) (import_board_name rt))
  /\ exists log,
       stdout r.2 = stdout w ++ log
       /\ (verbose = false -> log = [])
       /\ (dry_run = true -> verbose = true ->
           log = [MsgBoardReuse (import_board_name rt) (import_board_id rt (conn w))]
           \/ log = [MsgDryBoardCreate (import_board_name rt)
                       (import_board_id rt (conn w))]).
Proof.
  cbv zeta. pose proof (ensure_import_board_run rt dry_run verbose w) as Hb.
  cbv zeta in Hb. rewrite Hb. clear Hb.
  unfold import_board_id, import_board_name.
  destruct (fetchone _) as [row|]; simpl.
  - repeat split; try done; [by left|].
    eexists. split; [done|]. split; [by intros ->|]. intros _ ->. by left.
  - destruct dry_run; simpl.
    + repeat split; try done; [by left|].
      eexists. split; [done|]. split; [by intros ->|]. intros _ ->. by right.
    + repeat split; try done.
      * intros b [Hb|Hb%list_elem_of_singleton]%elem_of_app; [by left|by right].
      * eexists. split; [done|]. split; [by intros ->|done].
Qed.

(** A property of the world that holds once the board is settled, that the
    loop body keeps on the files of the run and that the last message keeps,
    holds after [main]. *)
Lemma main_inv (P : world -> Prop) (a : args) (w : world) :
  P (ensure_import_board rt (arg_dry_run a) (arg_verbose a) w).2 ->
  (forall p w0,
     p ∈ png_files (disk w) (arg_outputs a ++ ["images"]) ->
     P w0 ->
     P (main_loop_body rt a (arg_outputs a ++ ["images"])
          (import_board_id rt (conn w)) p w0).2) ->
  (forall w0, P w0 ->
     P (printed w0 (if negb (arg_dry_run a) || arg_verbose a
                    then [MsgDone] else []))) ->
  P (main rt a w).2.
Proof.
  intros Hboard Hbody Hdone. rewrite restore_main_run.
  destruct (ensure_import_board_effects (arg_dry_run a) (arg_verbose a) w)
    as (Hbid & _ & _ & Hdisk & _).
  destruct (ensure_import_board rt _ _ w) as [rb w1]. simpl in *. subst rb.
  rewrite Hdisk.
  pose proof (for_each_inv P (png_files (disk w) (arg_outputs a ++ ["images"]))
                (main_loop_body rt a (arg_outputs a ++ ["images"])
                   (import_board_id rt (conn w)))
                (fun p w0 Hp Hw0 => Hbody p w0 Hp Hw0) w1 Hboard) as Hinv.
  destruct (for_each _ _ w1) as [[e|[]] w2]; simpl in *; [done|].
  by apply Hdone.
Qed.

End Idempotence.

(** C1. Take any run of the restore tool. For a name that has a row in
    [images] when the run starts, the rows of [images] and of [board_images]
    with that name are the same after the run: nothing is inserted for it.
    The loop body, on a file whose relative path is such a name, returns
    right after the existence check, having at most printed that it skips
    the file. When every file the run works on is cataloged, [images] and
    [board_images] are left exactly as they were. *)
Theorem reconciliation_skips_cataloged (rt : runtime) (a : args) (w : world) :
  let images_root := arg_outputs a ++ ["images"] in
  (forall name,
      name ∈ image_name <$> images (conn w) ->
      rows_named name (images (conn (main rt a w).2))
      = rows_named name (images (conn w))
      /\ links_named name (board_images (conn (main rt a w).2))
         = links_named name (board_images (conn w)))
  /\ (forall bid p rel w0,
      relative_to p images_root = Some rel ->
      path_str rel ∈ image_name <$> images (conn w0) ->
      main_loop_body rt a images_root bid p w0
      = (Returned tt,
         printed w0 (if arg_verbose a then [MsgSkip (path_str rel)] else [])))
  /\ ((forall p rel,
         p ∈ png_files (disk w) images_root ->
         relative_to p images_root = Some rel ->
         path_str rel ∈ image_name <$> images (conn w)) ->
      images (conn (main rt a w).2) = images (conn w)
      /\ board_images (conn (main rt a w).2) = board_images (conn w)).
Proof.
  cbv zeta. split; [|split].
  - intros name Hin.
    assert (Hk : keeps_name name (rows_named name (images (conn w)))
                   (links_named name (board_images (conn w))) (main rt a w).2).
    { apply main_inv; [|intros p w0 _; apply main_loop_body_keeps_name|done].
      destruct (ensure_import_board_effects rt (arg_dry_run a) (arg_verbose a) w)
        as (_ & Hi & Hb & _).
      unfold keeps_name. by rewrite Hi, Hb. }
    by destruct Hk as (_ & -> & ->).
  - intros bid p rel w0 Hrel Hin. rewrite main_loop_body_run.
    by rewrite (classify_Known rt _ p rel).
  - intros Hall.
    apply (main_inv rt (fun w0 => images (conn w0) = images (conn w)
                            /\ board_images (conn w0) = board_images (conn w)));
      [| |done].
    { by destruct (ensure_import_board_effects rt (arg_dry_run a)
                     (arg_verbose a) w) as (_ & Hi & Hb & _). }
    intros p w0 Hp [Hi Hb]. rewrite main_loop_body_run.
    destruct (relative_to p (arg_outputs a ++ ["images"])) as [rel|] eqn:Hrel.
    + rewrite (classify_Known rt _ p rel); [done|done|].
      rewrite Hi. by apply (Hall p rel).
    + unfold classify. by rewrite Hrel.
Qed.

(** *** Dry runs *)

Section DryRun.

Variable rt : runtime.

Lemma png_files_on_disk (fs : gmap path node) (root p : path) :
  p ∈ png_files fs root -> is_Some (fs !! p).
Proof.
  unfold png_files, sorted, glob_png.
  rewrite merge_sort_Permutation.
  intros [[Hin _]%filter_In _]%list_elem_of_In%filter_In.
  apply list_elem_of_In, list_elem_of_fmap in Hin as ([q nd] & -> & Hin).
  apply elem_of_map_to_list in Hin. by exists nd.
Qed.

(** One turn of the loop in a dry run: the catalog and the disk stay, and
    when the turn returns, a file classified as new has been announced. *)
Lemma main_loop_body_dry (outs : path) (verbose gen : bool) (bid : string)
    (p : path) (w0 w w' : world) (res : result unit) :
  conn w = conn w0 -> disk w = disk w0 ->
  main_loop_body rt (Args outs true verbose gen) (outs ++ ["images"]) bid p w
  = (res, w') ->
  conn w' = conn w0 /\ disk w' = disk w0
  /\ exists log,
       stdout w' = stdout w ++ log
       /\ (verbose = false -> Forall quiet_msg log)
       /\ (verbose = true -> res = Returned tt ->
           forall name img created,
             classify rt (outs ++ ["images"]) p (conn w0) (disk w0 !! p)
             = New name img created ->
             MsgDryInsert name "general" "internal" 0
               (match info_invokeai_graph img with Some _ => 1 | None => 0 end)
               ∈ log
             /\ MsgDryLink name bid ∈ log
             /\ (gen = true -> forall q,
                   get_thumbnail_path outs p = Returned q ->
                   disk w0 !! q = None -> MsgDryThumb q ∈ log)).
Proof.
  intros Hc Hd. rewrite main_loop_body_run, Hc, Hd.
  cbn [arg_verbose arg_gen_thumbs arg_dry_run arg_outputs].
  destruct (classify rt _ p (conn w0) (disk w0 !! p))
    as [|known|e|e|name img created] eqn:Hcl.
  - intros [= <- <-]. repeat split; try done.
    exists []. rewrite app_nil_r. repeat split; try done.
  - intros [= <- <-]. simpl. repeat split; try done.
    eexists. split; [done|]. split; [by intros ->|done].
  - intros [= <- <-]. simpl. repeat split; try done.
    eexists. split; [done|]. split; [|done].
    intros _. by repeat constructor.
  - intros [= <- <-]. repeat split; try done.
    exists []. rewrite app_nil_r. repeat split; try done.
  - set (wc := cataloged _ bid p name img created w).
    assert (Hwc : conn wc = conn w0 /\ disk wc = disk w0
                  /\ stdout wc = stdout w ++
                       ((if verbose then [MsgFile p name] else [])
                        ++ [MsgDryInsert name "general" "internal" 0
                              (match info_invokeai_graph img with
                               | Some _ => 1 | None => 0 end)]
                        ++ (if verbose then [MsgDryLink name bid] else []))).
    { subst wc. unfold cataloged, printed. by simpl. }
    destruct Hwc as (Hc1 & Hd1 & Hs1).
    destruct gen.
    + intros (Hc2 & _ & Hd2 & _ & log & Hs2 & Hlog & Hraised)%ensure_thumbnail_effects.
      specialize (Hd2 eq_refl). specialize (Hlog eq_refl).
      rewrite Hc2, Hd2. split; [done|]. split; [done|].
      eexists. rewrite Hs2, Hs1, <- app_assoc. split; [done|]. split.
      * intros ->. simpl.
        destruct (get_thumbnail_path outs p) as [e|tp] eqn:Htp.
        -- rewrite Hraised by by eexists. by repeat constructor.
        -- rewrite (Hlog tp eq_refl). by repeat constructor.
      * intros -> Hres name' img' created' [= <- <- <-].
        split; [set_solver|]. split; [set_solver|].
        intros _ q Hq Hfree. rewrite (Hlog q Hq), Hd1, Hfree.
        rewrite bool_decide_eq_true_2 by done. set_solver.
    + intros [= <- <-]. split; [done|]. split; [done|].
      eexists. split; [exact Hs1|]. split.
      * intros ->. by repeat constructor.
      * intros -> _ name' img' created' [= <- <- <-].
        split; [set_solver|]. split; [set_solver|done].
Qed.

End DryRun.

Section DryLoop.

Variable rt : runtime.

Lemma announced_mono outs gen bid w0 p (log1 log2 log3 : list msg) :
  announced rt outs gen bid w0 p log2 ->
  announced rt outs gen bid w0 p (log1 ++ log2 ++ log3).
Proof.
  intros H name img created Hcl.
  destruct (H name img created Hcl) as (H1 & H2 & H3).
  split; [set_solver|]. split; [set_solver|].
  intros Hg q Hq Hfree. specialize (H3 Hg q Hq Hfree). set_solver.
Qed.

Lemma for_each_dry (outs : path) (verbose gen : bool) (bid : string)
    (w0 : world) (files : list path) :
  forall (w w' : world) (res : result unit),
    conn w = conn w0 -> disk w = disk w0 ->
    for_each files
      (main_loop_body rt (Args outs true verbose gen) (outs ++ ["images"]) bid) w
    = (res, w') ->
    conn w' = conn w0 /\ disk w' = disk w0
    /\ exists log,
         stdout w' = stdout w ++ log
         /\ (verbose = false -> Forall quiet_msg log)
         /\ (verbose = true -> res = Returned tt ->
             forall p, p ∈ files -> announced rt outs gen bid w0 p log).
Proof.
  induction files as [|p files IH]; intros w w' res Hc Hd; simpl.
  - intros [= <- <-]. split; [done|]. split; [done|].
    exists []. rewrite app_nil_r. split; [done|]. split; [done|].
    intros _ _ p Hp. by apply elem_of_nil in Hp.
  - unfold bind.
    destruct (main_loop_body rt _ _ bid p w) as [r1 w1] eqn:Hbody.
    apply (main_loop_body_dry rt outs verbose gen bid p w0) in Hbody
      as (Hc1 & Hd1 & log1 & Hs1 & Hq1 & Ha1); [|done|done].
    destruct r1 as [e|[]].
    + intros [= <- <-]. split; [done|]. split; [done|].
      exists log1. split; [done|]. split; [done|]. done.
    + intros (Hc2 & Hd2 & log2 & Hs2 & Hq2 & Ha2)%IH; [|done|done].
      split; [done|]. split; [done|].
      exists (log1 ++ log2). rewrite Hs2, Hs1, <- app_assoc.
      split; [done|]. split.
      * intros Hv. apply Forall_app. auto.
      * intros Hv Hres q [->|Hq]%elem_of_cons.
        -- specialize (Ha1 Hv eq_refl).
           apply (announced_mono _ _ _ _ _ [] log1 log2). exact Ha1.
        -- specialize (Ha2 Hv Hres q Hq).
           pose proof (announced_mono outs gen bid w0 q log1 log2 [] Ha2) as H.
           by rewrite app_nil_r in H.
Qed.

End DryLoop.

(** *** Real runs *)

Section RealRun.

Variable rt : runtime.

(** A file that is new in the course of a real run was new at its start. *)
Lemma classify_New_initial (images_root p : path) (w0 wr : world)
    (name : string) (img : image) (created : string) :
  is_Some (disk w0 !! p) ->
  disk w0 ⊆ disk wr ->
  (forall n, n ∈ image_name <$> images (conn w0) ->
     n ∈ image_name <$> images (conn wr)) ->
  classify rt images_root p (conn wr) (disk wr !! p) = New name img created ->
  classify rt images_root p (conn w0) (disk w0 !! p) = New name img created.
Proof.
  intros [nd Hnd] Hsub Hnames Hcl.
  assert (Hnd' : disk wr !! p = Some nd) by by eapply lookup_weaken.
  rewrite Hnd' in Hcl. rewrite Hnd.
  apply classify_New in Hcl as (Hfresh & (rel & Hrel & ->) & (mt & ->) & Hcreated).
  unfold classify. rewrite Hrel.
  rewrite bool_decide_eq_false_2 by (intros Hin; by apply Hfresh, Hnames).
  by rewrite Hcreated.
Qed.

Lemma main_loop_body_justified (outs : path) (verbose gen : bool) (bid : string)
    (w0 : world) (files : list path) (bs : list board_row) (p : path)
    (wr : world) :
  p ∈ files -> is_Some (disk w0 !! p) ->
  justified rt outs gen bid w0 files bs wr ->
  justified rt outs gen bid w0 files bs
    (main_loop_body rt (Args outs false verbose gen) (outs ++ ["images"]) bid p wr).2.
Proof.
  intros Hp Hon (Hsub & Hbs & Hnames & Hrows & Hlinks & Hfiles).
  rewrite main_loop_body_run.
  cbn [arg_verbose arg_gen_thumbs arg_dry_run arg_outputs].
  destruct (classify rt _ p (conn wr) (disk wr !! p))
    as [|known|e|e|name img created] eqn:Hcl; try done.
  apply (classify_New_initial _ p w0) in Hcl; [|done..].
  set (wc := cataloged _ bid p name img created wr).
  assert (Hwc : justified rt outs gen bid w0 files bs wc).
  { subst wc. unfold cataloged, justified. cbn [arg_dry_run conn disk images
      boards board_images].
    split; [done|]. split; [done|]. split.
    { intros n Hn. rewrite fmap_app. apply elem_of_app. left. by apply Hnames. }
    split.
    { intros r [Hr|Hr%list_elem_of_singleton]%elem_of_app; [by apply Hrows|].
      subst r. right. by exists p, img, created. }
    split; [|done].
    intros l. unfold insert_or_ignore_link. case_decide; [by apply Hlinks|].
    intros [Hl|Hl%list_elem_of_singleton]%elem_of_app; [by apply Hlinks|].
    subst l. right. by exists p, img, created. }
  destruct gen; [|done].
  destruct (ensure_thumbnail rt _ _ _ _ _ wc) as [res w'] eqn:Hth.
  apply ensure_thumbnail_effects in Hth as (Hc & Hd & _ & Hnew & _).
  destruct Hwc as (Hsub1 & Hbs1 & Hnames1 & Hrows1 & Hlinks1 & Hfiles1).
  unfold justified. cbn [snd]. rewrite Hc.
  split; [by etrans|]. split; [done|]. split; [done|]. split; [done|].
  split; [done|].
  intros q mt c [Hq|(_ & Htp & Hfree)]%Hnew; [by apply Hfiles1|].
  right. exists p, name, img, created. repeat split; try done.
  destruct (disk w0 !! q) as [nd|] eqn:Hq0; [|done].
  by rewrite (lookup_weaken _ _ _ _ Hq0 Hsub1) in Hfree.
Qed.

End RealRun.

Section DryVersusReal.

Variable rt : runtime.

Lemma main_dry (outs : path) (verbose gen : bool) (w w' : world)
    (res : result unit) :
  main rt (Args outs true verbose gen) w = (res, w') ->
  conn w' = conn w /\ disk w' = disk w
  /\ exists log,
       stdout w' = stdout w ++ log
       /\ (verbose = false -> Forall quiet_msg log)
       /\ (verbose = true -> res = Returned tt ->
           (forall p, p ∈ png_files (disk w) (outs ++ ["images"]) ->
              announced rt outs gen (import_board_id rt (conn w)) w p log)
           /\ (fetchone (filter (fun b => board_name b = import_board_name rt)
                           (boards (conn w))) = None ->
               MsgDryBoardCreate (import_board_name rt) (uuid4 rt) ∈ log)).
Proof.
  rewrite restore_main_run. cbn [arg_verbose arg_gen_thumbs arg_dry_run arg_outputs].
  pose proof (ensure_import_board_run rt true verbose w) as Hb.
  cbv zeta in Hb. rewrite Hb. clear Hb.
  fold (import_board_name rt).
  assert (Hbid : match
      (match fetchone (filter (fun b => board_name b = import_board_name rt)
                         (boards (conn w))) with
       | Some row =>
           (Returned (board_id row),
            printed w (if verbose
                       then [MsgBoardReuse (import_board_name rt) (board_id row)]
                       else []))
       | None =>
           (Returned (uuid4 rt),
            printed w (if verbose
                       then [MsgDryBoardCreate (import_board_name rt) (uuid4 rt)]
                       else []))
       end).1 with
    | Returned bid => bid
    | Raised _ => ""
    end = import_board_id rt (conn w)).
  { unfold import_board_id. by destruct (fetchone _). }
  rewrite Hbid. clear Hbid.
  set (logb := if verbose
               then match fetchone (filter (fun b => board_name b = import_board_name rt)
                                      (boards (conn w))) with
                    | Some row => [MsgBoardReuse (import_board_name rt) (board_id row)]
                    | None => [MsgDryBoardCreate (import_board_name rt) (uuid4 rt)]
                    end
               else []).
  assert (Hw1 : match fetchone (filter (fun b => board_name b = import_board_name rt)
                                  (boards (conn w))) with
       | Some row =>
           (Returned (board_id row),
            printed w (if verbose
                       then [MsgBoardReuse (import_board_name rt) (board_id row)]
                       else []))
       | None =>
           (Returned (uuid4 rt),
            printed w (if verbose
                       then [MsgDryBoardCreate (import_board_name rt) (uuid4 rt)]
                       else []))
       end = (Returned (import_board_id rt (conn w)), printed w logb)).
  { subst logb. unfold import_board_id. by destruct (fetchone _), verbose. }
  rewrite Hw1. clear Hw1. cbn [printed disk].
  destruct (for_each _ _ (printed w logb)) as [r2 w2] eqn:Hloop.
  apply (for_each_dry rt outs verbose gen _ w) in Hloop
    as (Hc & Hd & log & Hs & Hq & Ha); [|done|done].
  cbn [printed stdout] in Hs.
  assert (Hqb : verbose = false -> Forall quiet_msg logb)
    by (intros ->; by subst logb).
  destruct r2 as [e|[]].
  - intros [= <- <-]. split; [done|]. split; [done|].
    exists (logb ++ log). split; [by rewrite Hs, <- app_assoc|].
    split; [intros Hv; apply Forall_app; auto|done].
  - intros [= <- <-]. split; [done|]. split; [done|].
    exists (logb ++ log ++ if negb true || verbose then [MsgDone] else []).
    cbn [printed stdout conn disk]. rewrite Hs, <- !app_assoc.
    split; [done|]. split.
    + intros Hv. rewrite !Forall_app. rewrite Hv. by auto.
    + intros Hv _. split.
      * intros p Hp. apply announced_mono. by apply Ha.
      * intros Hnone. subst logb. rewrite Hv, Hnone. set_solver.
Qed.

Lemma main_real_justified (outs : path) (verbose gen : bool) (w : world) :
  let bid := import_board_id rt (conn w) in
  let wr := (main rt (Args outs false verbose gen) w).2 in
  justified rt outs gen bid w (png_files (disk w) (outs ++ ["images"]))
    (boards (conn wr)) wr
  /\ forall b, b ∈ boards (conn wr) ->
       b ∈ boards (conn w)
       \/ (b = BoardRow (uuid4 rt) (import_board_name rt)
           /\ fetchone (filter (fun b => board_name b = import_board_name rt)
                          (boards (conn w))) = None).
Proof.
  cbv zeta.
  set (bs := boards (conn (ensure_import_board rt false verbose w).2)).
  assert (Hj : justified rt outs gen (import_board_id rt (conn w)) w
                 (png_files (disk w) (outs ++ ["images"])) bs
                 (main rt (Args outs false verbose gen) w).2).
  { apply main_inv; cbn [arg_verbose arg_gen_thumbs arg_dry_run arg_outputs].
    - destruct (ensure_import_board_effects rt false verbose w)
        as (_ & Hi & Hb & Hd & _).
      unfold justified. rewrite Hi, Hb, Hd.
      split; [done|]. split; [done|]. split; [done|].
      split; [by left|]. split; by left.
    - intros p w0 Hp. apply main_loop_body_justified; [done|].
      by eapply png_files_on_disk.
    - done. }
  assert (Hbs : boards (conn (main rt (Args outs false verbose gen) w).2) = bs)
    by apply Hj.
  rewrite Hbs. split; [done|].
  subst bs. pose proof (ensure_import_board_run rt false verbose w) as Hb.
  cbv zeta in Hb. rewrite Hb. fold (import_board_name rt).
  destruct (fetchone _) as [row|]; simpl; [by left|].
  intros b [Hin|Hin%list_elem_of_singleton]%elem_of_app; [by left|by right].
Qed.

End DryVersusReal.

(** C3, as it holds. A dry run changes neither the catalog nor the disk.
    Without [--verbose] all it prints are would-be inserts and read errors:
    no board creation, link or thumbnail is announced. With [--verbose], when
    it runs to its end, it has announced every row that a real run from the
    same world adds to [images] (with the row's name and classification), to
    [boards] and to [board_images], and every file that run writes. *)
Theorem dry_run_reports (rt : runtime) (outs : path) (gen : bool) (w : world) :
  let dry verbose := main rt (Args outs true verbose gen) w in
  (forall verbose, conn (dry verbose).2 = conn w /\ disk (dry verbose).2 = disk w)
  /\ (exists log, stdout (dry false).2 = stdout w ++ log /\ Forall quiet_msg log)
  /\ ((dry true).1 = Returned tt ->
      forall verbose',
      exists log,
        stdout (dry true).2 = stdout w ++ log
        /\ reported log w (main rt (Args outs false verbose' gen) w).2).
Proof.
  cbv zeta. split; [|split].
  - intros verbose.
    destruct (main rt (Args outs true verbose gen) w) as [res w'] eqn:Hm.
    by apply main_dry in Hm as (? & ? & _).
  - destruct (main rt (Args outs true false gen) w) as [res w'] eqn:Hm.
    apply main_dry in Hm as (_ & _ & log & Hs & Hq & _).
    exists log. split; [done|]. by apply Hq.
  - destruct (main rt (Args outs true true gen) w) as [res w'] eqn:Hm.
    intros Hres verbose'. simpl in Hres. subst res.
    apply main_dry in Hm as (_ & _ & log & Hs & _ & Ha).
    destruct (Ha eq_refl eq_refl) as [Hfiles Hboard]. clear Ha.
    exists log. split; [done|].
    destruct (main_real_justified rt outs verbose' gen w)
      as ((_ & _ & _ & Hrows & Hlinks & Hdisk) & Hboards).
    split; [|split; [|split]].
    + intros r [Hr|(p & img & created & [Hp Hcl] & Hrow)]%Hrows; [by left|].
      right. destruct (Hfiles p Hp _ _ _ Hcl) as (Hins & _).
      by rewrite Hrow.
    + intros b [Hb|[-> Hnone]]%Hboards; [by left|].
      right. by apply Hboard.
    + intros l [Hl|(p & img & created & [Hp Hcl] & Hbid)]%Hlinks; [by left|].
      right. destruct (Hfiles p Hp _ _ _ Hcl) as (_ & Hlink & _).
      by rewrite Hbid.
    + intros q mt c [Hq|(p & name & img & created & [Hp Hcl] & Hg & Htp & Hfree)]%Hdisk;
        [by left|].
      right. destruct (Hfiles p Hp _ _ _ Hcl) as (_ & _ & Hth).
      by apply Hth.
Qed.

Lemma reconciliation_skips_cataloged_witness :
  rows_named "a.png"
    (images (conn (main ex_rt (Args ex_outputs false true true) ex_restore_world).2))
  = [ex_cataloged_row]
  /\ links_named "a.png"
       (board_images
          (conn (main ex_rt (Args ex_outputs false true true) ex_restore_world).2))
     = [BoardImageRow "some-board" "a.png"].
Proof.
  refine (proj1 (reconciliation_skips_cataloged ex_rt
                   (Args ex_outputs false true true) ex_restore_world)
            "a.png" _).
  by_decide.
Defined.


Lemma thumbnail_generation_once_witness :
  ensure_thumbnail ex_rt ex_outputs (ex_outputs ++ ["images"; "a.png"])
    false true None ex_restore_world
  = (Returned tt, ex_restore_world).
Proof.
  refine (proj1 (thumbnail_generation_once ex_rt ex_outputs
                   (ex_outputs ++ ["images"; "a.png"]) false true None
                   ex_restore_world)
            (ex_outputs ++ ["images"; "thumbnails"; "a.webp"]) eq_refl _).
  vm_compute. by eexists.
Defined.

(** C2 does not hold of the code. A file that Pillow cannot open is logged
    and skipped, but what is raised later in the loop body is not caught:
    with [--gen-thumbs], a PNG whose pixel data is damaged, or one so flat
    that the thumbnail would be 256 by 0, ends the run after its row was
    inserted; a PNG whose metadata chunk is a JSON list ends it before, even
    in a dry run. The next file, [b.png], is never looked at and the closing
    message is not printed. *)
Theorem per_file_failure_aborts_run :
  let real := Args ex_outputs false false true in
  let r1 := main ex_rt real (ex_fresh_world (ex_disk_with ex_img_truncated)) in
  let r2 := main ex_rt real (ex_fresh_world (ex_disk_with ex_img_sliver)) in
  let r3 := main ex_rt (Args ex_outputs true false false)
              (ex_fresh_world (ex_disk_with ex_img_listmeta)) in
  (r1.1 = Raised (OSError "image file is truncated")
   /\ image_name <$> images (conn r1.2) = ["a.png"]
   /\ stdout r1.2 = [])
  /\ (r2.1 = Raised (ValueError "height and width must be > 0")
      /\ image_name <$> images (conn r2.2) = ["a.png"]
      /\ stdout r2.2 = [])
  /\ (r3.1 = Raised AttributeError /\ stdout r3.2 = [])
  /\ png_files (ex_disk_with ex_img_truncated) (ex_outputs ++ ["images"])
     = [ex_outputs ++ ["images"; "a.png"]; ex_outputs ++ ["images"; "b.png"]].
Proof. vm_compute. repeat split. Qed.

(** What the loop body does catch: a file that cannot be opened is reported
    and the loop goes on. *)
Lemma unreadable_file_is_skipped (rt : runtime) (a : args) (bid : string)
    (rel : path) (w : world) :
  let p := (arg_outputs a ++ ["images"]) ++ rel in
  (path_str rel ∉ image_name <$> images (conn w)) ->
  (forall mt img, disk w !! p <> Some (File mt (Some img))) ->
  exists e, main_loop_body rt a (arg_outputs a ++ ["images"]) bid p w
            = (Returned tt, printed w [MsgErrRead p e]).
Proof.
  cbv zeta. intros Hnew Hp. rewrite main_loop_body_run. unfold classify.
  rewrite relative_to_app, bool_decide_eq_false_2 by done.
  destruct (disk w !! _) as [[mt|mt [img|]]|] eqn:Hd; try by eexists.
  by destruct (Hp mt img).
Qed.

(** C3, as stated, fails: without [--verbose] the dry run announces the
    insert only, while the real run also creates the board and the link. *)
Lemma dry_run_quiet_counterexample :
  ~ reported
      (stdout (main ex_rt (Args ex_outputs true false false)
                 (ex_fresh_world (ex_disk_with ex_img_b))).2)
      (ex_fresh_world (ex_disk_with ex_img_b))
      (main ex_rt (Args ex_outputs false false false)
         (ex_fresh_world (ex_disk_with ex_img_b))).2.
Proof.
  intros (_ & Hboards & _).
  specialize (Hboards (BoardRow "5d0c7a52-9f1e-4c0b-8a53-0e2f6b1d9c77"
                         "Recovered 21-11-25")).
  vm_compute in Hboards.
  destruct Hboards as [Hb|Hb]; [by left| |].
  - by apply elem_of_nil in Hb.
  - apply elem_of_cons in Hb as [Hb|Hb]; [discriminate|].
    apply elem_of_cons in Hb as [Hb|Hb]; [discriminate|].
    by apply elem_of_nil in Hb.
Qed.

(** Nor is everything a verbose dry run announces a change of the real
    run: a link that is already stored is announced, and then ignored. *)
Lemma dry_run_announces_ignored_link :
  MsgDryLink "b.png" "b-1"
    ∈ stdout (main ex_rt (Args ex_outputs true true false) ex_linked_world).2
  /\ board_images
       (conn (main ex_rt (Args ex_outputs false true false) ex_linked_world).2)
     = board_images (conn ex_linked_world).
Proof. split; [by_decide|]. vm_compute. reflexivity. Qed.

Lemma dry_run_reports_witness :
  exists log,
    stdout (main ex_rt (Args ex_outputs true true true) ex_restore_world).2
    = stdout ex_restore_world ++ log
    /\ reported log ex_restore_world
         (main ex_rt (Args ex_outputs false false true) ex_restore_world).2.
Proof.
  refine (proj2 (proj2 (dry_run_reports ex_rt ex_outputs true ex_restore_world))
            _ false).
  vm_compute. reflexivity.
Defined.

(** * Further properties of the tools *)

(** ** The reclassification tools, run after run *)

(** Resolution reads [boards] only, and the linked names [board_images]
    only. *)
Lemma get_board_id_by_name_boards (t t' : tool) (name : string) (w w' : world)
    (bid : string) :
  boards (conn w') = boards (conn w) ->
  get_board_id_by_name t name w = (Returned bid, w) ->
  get_board_id_by_name t' name w' = (Returned bid, w').
Proof.
  intros Hb. rewrite !get_board_id_by_name_run. unfold select_board_ci.
  rewrite Hb. destruct (fetchone _); [|done]. by intros [= ->].
Qed.

Lemma get_images_for_board_links (bid : string) (w w' : world)
    (names : list string) :
  board_images (conn w') = board_images (conn w) ->
  get_images_for_board bid w = (Returned names, w) ->
  get_images_for_board bid w' = (Returned names, w').
Proof.
  unfold get_images_for_board. py_unfold. intros ->. by intros [= ->].
Qed.

Lemma reclassified_twice (t1 t2 : tool) (names : list string)
    (rows : list image_row) :
  reclassified t2 names (reclassified t1 names rows) = reclassified t2 names rows.
Proof.
  unfold reclassified. rewrite <- list_fmap_compose.
  apply list_fmap_ext. intros _ r _. simpl.
  destruct (decide (image_name r ∈ names)) as [Hin|Hout].
  - simpl. by rewrite decide_True.
  - by rewrite decide_False.
Qed.

Lemma reclassified_names (t : tool) (names : list string) (rows : list image_row) :
  image_name <$> reclassified t names rows = image_name <$> rows.
Proof.
  unfold reclassified. rewrite <- list_fmap_compose.
  apply list_fmap_ext. intros _ r _. simpl. by case_decide.
Qed.

Lemma reclassified_fixed (t : tool) (names : list string) (rows : list image_row) :
  (forall r, r ∈ rows -> image_name r ∈ names ->
     image_category r = target_category t /\ image_origin r = target_origin t) ->
  reclassified t names rows = rows.
Proof.
  intros Hall. unfold reclassified. rewrite <- (list_fmap_id rows) at 2.
  apply list_fmap_ext. intros i r Hr. simpl. case_decide as Hin; [|done].
  destruct (Hall r) as [Hc Ho]; [by eapply list_elem_of_lookup_2|done|].
  destruct r. simpl in *. by subst.
Qed.

Lemma closing_count_main_output (t : tool) (name bid : string)
    (names : list string) (dry_run verbose : bool) (rowcount : nat)
    (out : list msg) :
  names <> [] ->
  closing_count (out ++ main_output t name bid names dry_run verbose rowcount)
  = Some (if dry_run then length names else rowcount).
Proof.
  intros Hne. unfold closing_count, main_output.
  destruct names as [|n names]; [done|].
  destruct dry_run.
  - rewrite ?app_comm_cons, !app_assoc. by rewrite last_snoc.
  - rewrite !app_assoc. by rewrite last_snoc.
Qed.

(** X1. Running one reclassification tool and then the other (or the same
    again) on the same board leaves the catalog as the second tool alone
    would: the later reclassification wins, the same number of rows is
    reported both times, and the other tables and the disk are never
    touched. Running the same tool twice changes nothing the second time;
    and when every linked row had the second tool's values to begin with,
    the pair of runs restores the catalog exactly. *)
Theorem reclassification_composes (t1 t2 : tool) (name : string)
    (v1 v2 : bool) (w : world) (bid : string) (names : list string) :
  get_board_id_by_name t1 name w = (Returned bid, w) ->
  get_images_for_board bid w = (Returned names, w) ->
  let r1 := Reclassify.main t1 (Reclassify.Args name false v1) w in
  let r2 := Reclassify.main t2 (Reclassify.Args name false v2) r1.2 in
  r2.1 = Returned tt
  /\ images (conn r2.2) = reclassified t2 names (images (conn w))
  /\ boards (conn r2.2) = boards (conn w)
  /\ board_images (conn r2.2) = board_images (conn w)
  /\ disk r2.2 = disk w
  /\ (t2 = t1 -> conn r2.2 = conn r1.2)
  /\ ((forall r, r ∈ images (conn w) -> image_name r ∈ names ->
         image_category r = target_category t2
         /\ image_origin r = target_origin t2) ->
      conn r2.2 = conn w)
  /\ (names <> [] ->
      exists n, closing_count (stdout r1.2) = Some n
                /\ closing_count (stdout r2.2) = Some n).
Proof.
  intros Hb Hn r1 r2.
  destruct (reclassify_main_run t1 name false v1 w bid names Hb Hn)
    as (_ & Hi1 & Hb1 & Hl1 & Hd1 & Ho1).
  fold r1 in Hi1, Hb1, Hl1, Hd1, Ho1.
  pose proof (get_board_id_by_name_boards t1 t2 name w r1.2 bid Hb1 Hb) as Hb'.
  pose proof (get_images_for_board_links bid w r1.2 names Hl1 Hn) as Hn'.
  destruct (reclassify_main_run t2 name false v2 r1.2 bid names Hb' Hn')
    as (Hr2 & Hi2 & Hb2 & Hl2 & Hd2 & Ho2).
  fold r2 in Hr2, Hi2, Hb2, Hl2, Hd2, Ho2.
  rewrite Hi1, reclassified_twice in Hi2.
  assert (Hconn : forall d d' : db,
             images d = images d' -> boards d = boards d' ->
             board_images d = board_images d' -> d = d').
  { intros [] []. simpl. congruence. }
  split; [done|]. split; [done|]. split; [congruence|].
  split; [congruence|]. split; [congruence|]. split; [|split].
  - intros ->. apply Hconn; [|done|done].
    by rewrite Hi2, Hi1.
  - intros Hall. apply Hconn; [|congruence|congruence].
    rewrite Hi2. by apply reclassified_fixed.
  - intros Hne. eexists. rewrite Ho1, Ho2.
    rewrite !closing_count_main_output by done. split; [done|].
    do 2 f_equal. apply list_fmap_ext. intros _ n _. simpl.
    apply count_by_names. by rewrite Hi1, reclassified_names.
Qed.

Lemma reclassification_composes_witness :
  conn (ConvertAssetsToBoard.main (Reclassify.Args "My Board" false false)
          (ConvertBoardToAssets.main (Reclassify.Args "My Board" false true)
             ex_world).2).2
  = ex_db.
Proof.
  refine (proj1 (proj2 (proj2 (proj2 (proj2 (proj2 (proj2
            (reclassification_composes ConvertBoardToAssets.tool
               ConvertAssetsToBoard.tool "My Board" true false ex_world "id-1"
               ["a.png"; "gone.png"] eq_refl eq_refl))))))) _).
  by_decide_forall.
Defined.

(** ** The restore tool: what a run adds *)

Lemma insert_or_ignore_link_prefix (l : board_image_row)
    (links : list board_image_row) :
  links `prefix_of` insert_or_ignore_link l links.
Proof.
  unfold insert_or_ignore_link. case_decide; [done|]. by apply prefix_app_r.
Qed.


Section Additions.

Variable rt : runtime.

(** One turn of the loop either leaves the catalog alone or, in a real run
    on a file classified as new, appends the row of the file and links its
    name; the disk only gains entries and [boards] is not touched. *)
Lemma main_loop_body_effects (a : args) (images_root : path) (bid : string)
    (p : path) (w w' : world) (res : result unit) :
  main_loop_body rt a images_root bid p w = (res, w') ->
  disk w ⊆ disk w'
  /\ boards (conn w') = boards (conn w)
  /\ ((images (conn w') = images (conn w)
       /\ board_images (conn w') = board_images (conn w))
      \/ exists name img created,
           arg_dry_run a = false
           /\ classify rt images_root p (conn w) (disk w !! p)
              = New name img created
           /\ images (conn w') = images (conn w) ++ [new_row name img created]
           /\ board_images (conn w')
              = insert_or_ignore_link (BoardImageRow bid name)
                  (board_images (conn w))).
Proof.
  rewrite main_loop_body_run.
  destruct (classify rt images_root p (conn w) (disk w !! p))
    as [|known|e|e|name img created] eqn:Hcl;
    try (intros [= <- <-]; split; [done|]; split; [done|]; by left).
  assert (Hcat : forall wc, wc = cataloged a bid p name img created w ->
             disk wc = disk w /\ boards (conn wc) = boards (conn w)
             /\ ((images (conn wc) = images (conn w)
                  /\ board_images (conn wc) = board_images (conn w))
                 \/ (arg_dry_run a = false
                     /\ images (conn wc)
                        = images (conn w) ++ [new_row name img created]
                     /\ board_images (conn wc)
                        = insert_or_ignore_link (BoardImageRow bid name)
                            (board_images (conn w))))).
  { intros wc ->. unfold cataloged. destruct (arg_dry_run a); simpl.
    - split; [done|]. split; [done|]. by left.
    - split; [done|]. split; [done|]. by right. }
  assert (Hgoal : forall wc, wc = cataloged a bid p name img created w ->
             conn w' = conn wc -> disk wc ⊆ disk w' ->
             disk w ⊆ disk w'
             /\ boards (conn w') = boards (conn w)
             /\ ((images (conn w') = images (conn w)
                  /\ board_images (conn w') = board_images (conn w))
                 \/ exists name0 img0 created0,
                      arg_dry_run a = false
                      /\ New name img created = New name0 img0 created0
                      /\ images (conn w')
                         = images (conn w) ++ [new_row name0 img0 created0]
                      /\ board_images (conn w')
                         = insert_or_ignore_link (BoardImageRow bid name0)
                             (board_images (conn w)))).
  { intros wc Hwc Hc Hd. destruct (Hcat wc Hwc) as (Hd0 & Hb0 & Hrest).
    rewrite Hc. rewrite Hd0 in Hd. split; [done|]. split; [done|].
    destruct Hrest as [?|(? & ? & ?)]; [by left|].
    right. by exists name, img, created. }
  destruct (arg_gen_thumbs a).
  - intros (Hc & Hd & _)%ensure_thumbnail_effects. by eapply Hgoal.
  - intros [= <- <-]. by eapply Hgoal.
Qed.

Lemma ensure_import_board_boards (dry_run verbose : bool) (w : world) :
  boards (conn (ensure_import_board rt dry_run verbose w).2)
  = boards (conn w)
    ++ (if dry_run then []
        else match fetchone (filter (fun b => board_name b = import_board_name rt)
                               (boards (conn w))) with
             | Some _ => []
             | None => [BoardRow (uuid4 rt) (import_board_name rt)]
             end).
Proof.
  pose proof (ensure_import_board_run rt dry_run verbose w) as Hb.
  cbv zeta in Hb. rewrite Hb. unfold import_board_name.
  destruct (fetchone _) as [row|]; destruct dry_run; simpl;
    by rewrite ?app_nil_r.
Qed.

Lemma main_boards (a : args) (w : world) :
  boards (conn (main rt a w).2)
  = boards (conn (ensure_import_board rt (arg_dry_run a) (arg_verbose a) w).2).
Proof.
  apply (main_inv rt (fun w0 => boards (conn w0) = _)); [done| |done].
  intros p w0 _ <-.
  destruct (main_loop_body rt _ _ _ _ _) as [res w'] eqn:Hbody.
  apply main_loop_body_effects in Hbody as (_ & Hb & _). by simpl.
Qed.

End Additions.

(** X2. A run of the restore tool, whatever its flags and however it ends,
    never deletes or rewrites what was there: the rows of [images], of
    [boards] and of [board_images] it started with are still there, in
    place, followed by what it added, and every disk entry it found is
    unchanged. *)
Theorem run_only_appends (rt : runtime) (a : args) (w : world) :
  let w' := (main rt a w).2 in
  images (conn w) `prefix_of` images (conn w')
  /\ boards (conn w) `prefix_of` boards (conn w')
  /\ board_images (conn w) `prefix_of` board_images (conn w')
  /\ disk w ⊆ disk w'.
Proof.
  cbv zeta.
  apply (main_inv rt (fun w0 =>
           images (conn w) `prefix_of` images (conn w0)
           /\ boards (conn w) `prefix_of` boards (conn w0)
           /\ board_images (conn w) `prefix_of` board_images (conn w0)
           /\ disk w ⊆ disk w0)); [| |done].
  - destruct (ensure_import_board_effects rt (arg_dry_run a) (arg_verbose a) w)
      as (_ & -> & -> & -> & _).
    rewrite ensure_import_board_boards. repeat split; try done.
    by apply prefix_app_r.
  - intros p w0 _ (Hi & Hb & Hl & Hd).
    destruct (main_loop_body rt _ _ _ _ _) as [res w'] eqn:Hbody.
    apply main_loop_body_effects in Hbody as (Hd' & Hb' & Hrest). simpl.
    rewrite Hb'. split; [|split; [done|split]].
    + destruct Hrest as [[-> _]|(? & ? & ? & _ & _ & -> & _)]; [done|].
      by apply prefix_app_r.
    + destruct Hrest as [[_ ->]|(? & ? & ? & _ & _ & _ & ->)]; [done|].
      etrans; [exact Hl|]. apply insert_or_ignore_link_prefix.
    + by etrans.
Qed.

(** X3. A run adds at most one board: none in a dry run or when a board
    with today's name is stored, and otherwise the board with the fresh
    identifier and today's name, at the end of [boards]. After a real run,
    any later run on the same day, whatever its flags and the identifier it
    would draw, gets the same board from [ensure_import_board] and adds no
    board. *)
Theorem one_board_per_day (rt : runtime) (a : args) (w : world) :
  let w1 := (main rt a w).2 in
  boards (conn w1)
  = boards (conn w)
    ++ (if arg_dry_run a then []
        else match fetchone (filter (fun b => board_name b = import_board_name rt)
                               (boards (conn w))) with
             | Some _ => []
             | None => [BoardRow (uuid4 rt) (import_board_name rt)]
             end)
  /\ forall rt' a',
       strftime "%d-%m-%y" (datetime_now rt') = strftime "%d-%m-%y" (datetime_now rt) ->
       arg_dry_run a = false ->
       (ensure_import_board rt' (arg_dry_run a') (arg_verbose a') w1).1
       = (ensure_import_board rt (arg_dry_run a) (arg_verbose a) w).1
       /\ boards (conn (main rt' a' w1).2) = boards (conn w1).
Proof.
  cbv zeta.
  assert (Hboards : boards (conn (main rt a w).2)
            = boards (conn w)
              ++ (if arg_dry_run a then []
                  else match fetchone (filter (fun b => board_name b
                                                        = import_board_name rt)
                                         (boards (conn w))) with
                       | Some _ => []
                       | None => [BoardRow (uuid4 rt) (import_board_name rt)]
                       end))
    by by rewrite main_boards, ensure_import_board_boards.
  split; [exact Hboards|].
  intros rt' a' Hday Hreal.
  assert (Hname : import_board_name rt' = import_board_name rt)
    by (unfold import_board_name; by rewrite Hday).
  destruct (ensure_import_board_effects rt (arg_dry_run a) (arg_verbose a) w)
    as (-> & _).
  destruct (ensure_import_board_effects rt' (arg_dry_run a') (arg_verbose a')
              (main rt a w).2) as (-> & _).
  rewrite main_boards, (ensure_import_board_boards rt').
  rewrite Hreal in Hboards. unfold import_board_id.
  rewrite Hname, Hboards.
  destruct (fetchone (filter _ (boards (conn w)))) as [row|] eqn:Hf.
  - rewrite app_nil_r, Hf. split; [done|]. destruct (arg_dry_run a'); by rewrite app_nil_r.
  - assert (Hnone : filter (fun b => board_name b = import_board_name rt)
                      (boards (conn w)) = [])
      by (by destruct (filter _ (boards (conn w)))).
    rewrite filter_app, Hnone, filter_cons_True by done. simpl.
    split; [done|]. destruct (arg_dry_run a'); by rewrite app_nil_r.
Qed.

Lemma one_board_per_day_witness :
  boards (conn (main ex_rt (Args ex_outputs true true true)
                  (main ex_rt (Args ex_outputs false false false)
                     ex_restore_world).2).2)
  = boards (conn (main ex_rt (Args ex_outputs false false false)
                    ex_restore_world).2).
Proof.
  refine (proj2 (proj2 (one_board_per_day ex_rt (Args ex_outputs false false false)
                          ex_restore_world)
                   ex_rt (Args ex_outputs true true true) eq_refl eq_refl)).
Defined.

(** X4. Every row a run adds to [images] comes from a file of the scan that
    Pillow can open, in a run that is not a dry run: its name is the path of
    the file relative to the image root, its origin is 'internal', its
    category 'general', it is not intermediate, its size is that of the
    image, its metadata is the raw text chunk, [has_workflow] tells whether
    the graph chunk is present, [updated_at] equals [created_at], which is
    what [detect_created_at] returns for the file, and it is not deleted. *)
Theorem inserted_rows_shape (rt : runtime) (a : args) (w : world)
    (r : image_row) :
  r ∈ images (conn (main rt a w).2) ->
  r ∉ images (conn w) ->
  arg_dry_run a = false
  /\ exists p rel mt img,
       p ∈ png_files (disk w) (arg_outputs a ++ ["images"])
       /\ relative_to p (arg_outputs a ++ ["images"]) = Some rel
       /\ disk w !! p = Some (File mt (Some img))
       /\ detect_created_at rt (meta_json_of rt img) p w
          = (Returned (created_at r), w)
       /\ r = ImageRow (path_str rel) "internal" "general"
                (img_size img).1 (img_size img).2 (info_invokeai_metadata img)
                0 (created_at r) (created_at r)
                (match info_invokeai_graph img with Some _ => 1 | None => 0 end)
                None.
Proof.
  intros Hr Hnew. destruct a as [outs [] verbose gen].
  { exfalso. destruct (main rt _ w) as [res w'] eqn:Hm.
    apply main_dry in Hm as (Hc & _). simpl in Hr. by rewrite Hc in Hr. }
  split; [done|]. simpl.
  destruct (main_real_justified rt outs verbose gen w)
    as ((_ & _ & _ & Hrows & _) & _).
  destruct (Hrows r Hr) as [?|(p & img & created & [Hp Hcl] & Hrow)]; [done|].
  apply classify_New in Hcl as (_ & (rel & Hrel & Hname) & (mt & Hd) & Hcreated).
  exists p, rel, mt, img. split; [done|]. split; [done|]. split; [done|].
  assert (Hc : created_at r = created) by by rewrite Hrow.
  split.
  - by rewrite detect_created_at_run, Hcreated, Hc.
  - rewrite Hc, <- Hname. exact Hrow.
Qed.

Lemma inserted_rows_shape_witness :
  exists p rel mt img,
    p ∈ png_files ex_disk (ex_outputs ++ ["images"])
    /\ relative_to p (ex_outputs ++ ["images"]) = Some rel
    /\ ex_disk !! p = Some (File mt (Some img))
    /\ detect_created_at ex_rt (meta_json_of ex_rt img) p ex_restore_world
       = (Returned "2024-03-05 18:45:12.250000", ex_restore_world)
    /\ ImageRow "sub/b.png" "internal" "general" 512 512 None 0
         "2024-03-05 18:45:12.250000" "2024-03-05 18:45:12.250000" 0 None
       = ImageRow (path_str rel) "internal" "general"
           (img_size img).1 (img_size img).2 (info_invokeai_metadata img)
           0 "2024-03-05 18:45:12.250000" "2024-03-05 18:45:12.250000"
           (match info_invokeai_graph img with Some _ => 1 | None => 0 end)
           None.
Proof.
  refine (proj2 (inserted_rows_shape ex_rt (Args ex_outputs false false false)
                   ex_restore_world
                   (ImageRow "sub/b.png" "internal" "general" 512 512 None 0
                      "2024-03-05 18:45:12.250000" "2024-03-05 18:45:12.250000"
                      0 None) _ _)).
  - by_decide.
  - by_decide.
Defined.

(** ** The restore tool: what a real run that ends normally has done *)

Section Completeness.

Variable rt : runtime.
Variable a : args.
Variable bid : string.
Hypothesis Hreal : arg_dry_run a = false.




End Completeness.




(** ** The scan of the image directory *)

Lemma string_compare_lt_trans (s1 : string) : forall s2 s3 : string,
  String.compare s1 s2 = Lt -> String.compare s2 s3 = Lt ->
  String.compare s1 s3 = Lt.
Proof.
  induction s1 as [|c1 s1 IH]; intros [|c2 s2] [|c3 s3]; simpl; try done.
  unfold Ascii.compare.
  destruct (N.compare_spec (N_of_ascii c1) (N_of_ascii c2)) as [H12|H12|H12];
    destruct (N.compare_spec (N_of_ascii c2) (N_of_ascii c3)) as [H23|H23|H23];
    try done; intros Ha Hb.
  - rewrite H12, H23, N.compare_refl. by eapply IH.
  - rewrite H12. by apply N.compare_lt_iff in H23 as ->.
  - rewrite <- H23. by apply N.compare_lt_iff in H12 as ->.
  - assert (H13 : (N_of_ascii c1 < N_of_ascii c3)%N) by lia.
    by apply N.compare_lt_iff in H13 as ->.
Qed.

Lemma string_ltb_trans (x y z : string) :
  String.ltb x y = true -> String.ltb y z = true -> String.ltb x z = true.
Proof.
  unfold String.ltb.
  destruct (String.compare x y) eqn:Hxy; try done.
  destruct (String.compare y z) eqn:Hyz; try done.
  by rewrite (string_compare_lt_trans x y z).
Qed.

Lemma string_ltb_irrefl (x : string) : String.ltb x x = false.
Proof.
  unfold String.ltb. pose proof (String.compare_antisym x x) as H.
  by destruct (String.compare x x).
Qed.

Lemma string_ltb_total (x y : string) :
  x <> y -> String.ltb x y = true \/ String.ltb y x = true.
Proof.
  intros Hne. unfold String.ltb. rewrite (String.compare_antisym y x).
  destruct (String.compare x y) eqn:Hxy; simpl; auto.
  by apply String.compare_eq_iff in Hxy.
Qed.

Lemma path_le_total : Total path_le.
Proof.
  intros p. unfold path_le.
  induction p as [|x p IH]; intros [|y q]; cbn [path_leb]; auto.
  repeat case_decide; subst; try done.
  all: try apply IH. all: try by apply string_ltb_total.
Qed.

Lemma path_le_trans : Transitive path_le.
Proof.
  intros p. unfold path_le.
  induction p as [|x p IH]; intros [|y q] [|z r]; cbn [path_leb]; try done.
  repeat case_decide; subst; try done.
  - apply IH.
  - intros Hlt1 Hlt2. pose proof (string_ltb_trans _ _ _ Hlt1 Hlt2) as Hlt.
    by rewrite string_ltb_irrefl in Hlt.
  - apply string_ltb_trans.
Qed.

(** The files of the scan: the entries of the disk strictly below the image
    root whose last part ends in [.png] and that have no part named
    [thumbnails]. *)
Lemma elem_of_png_files (fs : gmap path node) (root p : path) :
  p ∈ png_files fs root
  <-> is_Some (fs !! p)
      /\ (exists rel, rel <> [] /\ p = root ++ rel)
      /\ matches_png (List.last p "") = true
      /\ "thumbnails" ∉ p.
Proof.
  unfold png_files, sorted, glob_png. rewrite merge_sort_Permutation.
  rewrite list_elem_of_In, filter_In, filter_In, <- list_elem_of_In.
  rewrite negb_true_iff, bool_decide_eq_false.
  assert (Hkeys : p ∈ (map_to_list fs).*1 <-> is_Some (fs !! p)).
  { rewrite list_elem_of_fmap. split.
    - intros ([q nd] & -> & Hin%elem_of_map_to_list). by exists nd.
    - intros [nd Hnd]. exists (p, nd). split; [done|].
      by apply elem_of_map_to_list. }
  rewrite Hkeys.
  assert (Hglob : match relative_to p root with
                  | Some ((_ :: _) as rel) => matches_png (List.last rel "")
                  | _ => false
                  end = true
                  <-> (exists rel, rel <> [] /\ p = root ++ rel)
                      /\ matches_png (List.last p "") = true).
  { destruct (relative_to p root) as [rel|] eqn:Hrel.
    - apply relative_to_Some in Hrel as ->. destruct rel as [|x rel].
      + split; [done|]. intros [(rel & Hne & Heq) _].
        apply app_inv_head in Heq. by subst.
      + assert (Hlast : List.last (root ++ x :: rel) "" = List.last (x :: rel) "").
        { clear. induction root as [|r root IH]; [done|].
          simpl. rewrite IH. by destruct root. }
        rewrite Hlast. split; [|by intros [_ ?]].
        intros ?. split; [|done]. by exists (x :: rel).
    - split; [done|]. intros [(rel & _ & ->) _].
      by rewrite relative_to_app in Hrel. }
  rewrite Hglob. tauto.
Qed.

(** X6. The scan [main] works on holds exactly the disk entries strictly
    below the image root whose name ends in [.png] and none of whose parts,
    those of the root included, is [thumbnails]; each of them once, in the
    lexicographic order of their parts. So an outputs root that itself has a
    part named [thumbnails] makes every run a run on no file. *)
Theorem scan_sorted_without_thumbnails (fs : gmap path node) (root : path) :
  (forall p,
      p ∈ png_files fs root
      <-> is_Some (fs !! p)
          /\ (exists rel, rel <> [] /\ p = root ++ rel)
          /\ matches_png (List.last p "") = true
          /\ "thumbnails" ∉ p)
  /\ NoDup (png_files fs root)
  /\ StronglySorted path_le (png_files fs root)
  /\ ("thumbnails" ∈ root -> png_files fs root = []).
Proof.
  split; [intros p; apply elem_of_png_files|]. split; [|split].
  - unfold png_files, sorted, glob_png. rewrite merge_sort_Permutation.
    apply NoDup_ListNoDup, List.NoDup_filter, List.NoDup_filter, NoDup_ListNoDup.
    apply NoDup_fst_map_to_list.
  - apply StronglySorted_merge_sort; [apply path_le_trans|apply path_le_total].
  - intros Hroot. destruct (png_files fs root) as [|p files] eqn:Hfiles; [done|].
    assert (Hp : p ∈ png_files fs root) by (rewrite Hfiles; by left).
    apply elem_of_png_files in Hp as (_ & (rel & _ & ->) & _ & Hno).
    exfalso. apply Hno. set_solver.
Qed.

Lemma scan_sorted_without_thumbnails_witness :
  (ex_outputs ++ ["images"; "sub"; "b.png"]
     ∈ png_files ex_disk (ex_outputs ++ ["images"]))
  /\ png_files ex_disk ["/"; "srv"; "thumbnails"; "images"] = [].
Proof.
  split.
  - apply (proj1 (scan_sorted_without_thumbnails ex_disk (ex_outputs ++ ["images"]))).
    split; [vm_compute; by eexists|]. split; [by exists ["sub"; "b.png"]|].
    split; [vm_compute; reflexivity|]. by_decide.
  - apply (proj2 (proj2 (proj2 (scan_sorted_without_thumbnails ex_disk
                                  ["/"; "srv"; "thumbnails"; "images"])))).
    by_decide.
Defined.

(** ** Running the restore tool again *)




(** ** What [--verbose] changes *)

Section Verbose.

Variable rt : runtime.





End Verbose.

